(** * The object-generation test client: a model of
    [scripts/programmable-object-test.py]

    The script creates a generation on a remote HTTP+JSON API, long-polls
    the object until the task of its version is final, downloads the
    artifact and registers it with a debug endpoint.

    The embedding follows the script from top to bottom:
    - JSON values as [json.loads] builds them, with Python's truthiness,
      [.get], subscripting and iteration;
    - the exceptions the script raises or lets through;
    - the pure helpers ([get_version_task], [get_version_status],
      [raise_if_failed]);
    - the world the script talks to (clock, network, event loop), driven
      by an environment that answers every request;
    - the coroutines ([create_generation], [wait_until_version_final],
      [get_object_content_glb], [debug_add_object_to_rooms], [main]) in a
      state-and-exception monad, the [while True] loop by fuel. *)

From Stdlib Require Import ZArith QArith Qround String List Lia Lqa.
From Stdlib Require Import Floats.PrimFloat.
From stdpp Require Import base option gmap strings list pretty.

Local Open Scope Z_scope.
Local Open Scope string_scope.

(** ** Python values *)

Abbreviation bytes := (list Byte.byte).

(** What [json.loads] returns: [None], [bool], [int], [float], [str],
    [list], and [dict] with [str] keys. *)
#[warnings="-register-all"]
Inductive json :=
| JNull
| JBool (b : bool)
| JInt (n : Z)
| JFloat (f : float)
| JStr (s : string)
| JList (l : list json)
| JObj (m : gmap string json).

(** Python's truth value, as used by [not x] and [x or y]. *)
Definition truthy (j : json) : bool :=
  match j with
  | JNull => false
  | JBool b => b
  | JInt n => negb (n =? 0)%Z
  | JFloat f => negb (PrimFloat.eqb f 0%float)
  | JStr s => negb (String.eqb s "")
  | JList l => match l with [] => false | _ :: _ => true end
  | JObj m => negb (bool_decide (m = ∅))
  end.

(** [x or y] *)
Definition py_or (x y : json) : json := if truthy x then x else y.

(** [x == s] for a [str] [s]: only an equal [str] compares equal. *)
Definition eq_str (x : json) (s : string) : bool :=
  match x with
  | JStr s' => String.eqb s' s
  | _ => false
  end.

(** ** Exceptions *)

(** The exception classes that occur. [RuntimeError] keeps its argument
    as a value: the script passes [resp.get("error")], whatever the
    server put there. [TypeError None], [KeyError] and [AttributeError]
    are the interpreter's own (their texts are not modelled);
    [ValueError] is what the JSON parser and the UTF-8 codec raise;
    [TransportError] stands for what [urlopen] raises besides [HTTPError]
    ([URLError], socket timeouts). *)
Inductive exn :=
| RuntimeError (arg : json)
| TypeError (msg : option string)
| TimeoutError (msg : string)
| KeyError (key : string)
| ValueError
| AttributeError
| CancelledError
| HTTPError (code : Z)
| TransportError (msg : string).

(** [CancelledError] derives from [BaseException] only; the others are
    caught by [except Exception]. *)
Definition is_Exception (e : exn) : bool :=
  match e with
  | CancelledError => false
  | _ => true
  end.

Inductive result (A : Type) :=
| Ok (a : A)
| Raise (e : exn).
Arguments Ok {A} a.
Arguments Raise {A} e.

Definition rbind {A B} (r : result A) (k : A → result B) : result B :=
  match r with
  | Ok a => k a
  | Raise e => Raise e
  end.

(** [try: body except Exception: handler] *)
Definition except_Exception {A} (body handler : result A) : result A :=
  match body with
  | Ok a => Ok a
  | Raise e => if is_Exception e then handler else Raise e
  end.

Declare Scope result_scope.
Delimit Scope result_scope with result.
Notation "'let?' x := r 'in' k" := (rbind r (λ x, k))
  (at level 10, x name, r at level 100, k at level 200) : result_scope.

(** [x.get(key)]: only a [dict] has the method; a missing key gives
    [None]. *)
Definition py_get (x : json) (key : string) : result json :=
  match x with
  | JObj m => Ok (default JNull (m !! key))
  | _ => Raise AttributeError
  end.

(** [x[key]] with a [str] key. *)
Definition py_subscript (x : json) (key : string) : result json :=
  match x with
  | JObj m =>
      match m !! key with
      | Some v => Ok v
      | None => Raise (KeyError key)
      end
  | _ => Raise (TypeError None)
  end.

Fixpoint chars (s : string) : list json :=
  match s with
  | EmptyString => []
  | String c s' => JStr (String c EmptyString) :: chars s'
  end.

(** [for t in x]: a list gives its items, a dict its keys, a str its
    characters; nothing else is iterable. *)
Definition py_iter (x : json) : result (list json) :=
  match x with
  | JList l => Ok l
  | JObj m => Ok (JStr <$> (map_to_list m).*1)
  | JStr s => Ok (chars s)
  | _ => Raise (TypeError None)
  end.

(** ** Domain *)

Record ObjectMetadata := {
  id : string;
  version : string;
  name : string;
  description : string;
}.

Inductive TaskStatus := processing | succeeded | failed.

(** The loop of [get_version_task]: the first item whose ["version"]
    equals [version]. *)
Fixpoint find_version (ts : list json) (version : string)
  : result (option json) :=
  match ts with
  | [] => Ok None
  | t :: ts' =>
      (let? v := py_get t "version" in
       if eq_str v version then Ok (Some t) else find_version ts' version)%result
  end.

Definition get_version_task (state : json) (version : string)
  : result (option json) :=
  (let? tasks := py_get state "tasks" in
   let? ts := py_iter (py_or tasks (JList [])) in
   find_version ts version)%result.

Definition get_version_status (state : json) (version : string)
  : result (option TaskStatus) :=
  (let? t := get_version_task state version in
   match t with
   | None => Ok None
   | Some t =>
       if negb (truthy t) then Ok None
       else
         let? st := py_get t "status" in
         if eq_str st "processing" then Ok (Some processing)
         else if eq_str st "succeeded" then Ok (Some succeeded)
         else if eq_str st "failed" then Ok (Some failed)
         else Ok None
   end)%result.

Definition raise_if_failed (state : json) (version : string) : result unit :=
  (let? t := get_version_task state version in
   match t with
   | None => Ok tt
   | Some t =>
       if negb (truthy t) then Ok tt
       else
         let? st := py_get t "status" in
         if eq_str st "failed" then
           let? e := py_get t "error" in
           Raise (RuntimeError (py_or e (JStr "Generation failed")))
         else Ok tt
   end)%result.

(** ** The runtime library

    What the script takes from Python's standard library and this
    development does not define: the JSON parser, the UTF-8 codec and
    the text of [str(x)] and [repr(b)]. A parser or codec that raises
    returns [None]. *)
Class Runtime := {
  json_loads : string → option json;
  utf8_decode : bytes → option string;
  utf8_decode_replace : bytes → string;
  py_str : json → string;
  py_repr : bytes → string;
}.

(** ** The world *)

Record request := {
  method : string;
  url : string;
  payload : option json;
}.

(** What [request.urlopen] does with a request: it returns a response
    (status 2xx), raises [HTTPError] (any other status), or raises
    something else. *)
Inductive urlopen_result :=
| Response (status : Z) (body : bytes) (content_type : option string)
| ErrorResponse (code : Z) (body : bytes)
| Failure (e : exn).

(** Lines of the log, by the call that writes them. *)
Inductive log_line :=
| LogCreate (object_name version model : string)
| LogCreated (task_id : string)
| LogWait (task_id version : string) (poll_timeout : Z) (overall_timeout : option Z)
| LogNotFoundYet (attempt : Z)
| LogProcessing (attempt : Z)
| LogDone (elapsed : Q)
| LogVerify (version : string)
| LogFetch (task_id version : string)
| LogContent (content_type : option string) (glb_bytes : nat)
| LogSnapshot (url : string)
| LogDebugAdd
| LogOk.

(** What the main coroutine does to the outside, in order. *)
Inductive event :=
| EvLog (l : log_line)
| EvTime (ms : Z)
| EvPerfCounter (t : Q)
| EvHttp (r : request)
| EvSleep (delay : Q)
| EvCreateTask
| EvCancelTask
| EvAwaitTask
| EvPrint.

(** The progress task: not created, pending (has its body been entered?
    was [cancel()] called?), or done (did it end by [CancelledError]?). *)
Inductive task_state :=
| NoTask
| TaskPending (started must_cancel : bool)
| TaskDone (cancelled : bool).

(** Time is a rational number of seconds: the readings of
    [time.perf_counter()] and the sums and comparisons made with them
    are exact, where the script has floating point.

    The environment answers the script: the [k]-th [urlopen] with the
    time it took and its outcome, the [k]-th [asyncio.sleep(d)] with the
    time it took and the exception that interrupted it, if any, the
    [k]-th reading of [time.perf_counter()] with the time that passed
    since the last effect, the [k]-th [time.time()] in milliseconds. *)
Record env := {
  urlopen : nat → request → Q * urlopen_result;
  asyncio_sleep : nat → Q → Q * option exn;
  drift : nat → Q;
  time_ms : nat → Z;
}.

(** The world: the clock, how many effects of each kind have happened,
    the events so far, and the progress task. *)
Record world := {
  clock : Q;
  n_http : nat;
  n_sleep : nat;
  n_clock : nat;
  n_time : nat;
  trace : list event;
  tick_task : task_state;
}.

(** The updates of the world, one field at a time. *)
Definition emit (e : event) (w : world) : world :=
  {| clock := clock w; n_http := n_http w; n_sleep := n_sleep w;
     n_clock := n_clock w; n_time := n_time w;
     trace := trace w ++ [e]; tick_task := tick_task w |}.

Definition set_clock (t : Q) (w : world) : world :=
  {| clock := t; n_http := n_http w; n_sleep := n_sleep w;
     n_clock := n_clock w; n_time := n_time w;
     trace := trace w; tick_task := tick_task w |}.

Definition set_task (s : task_state) (w : world) : world :=
  {| clock := clock w; n_http := n_http w; n_sleep := n_sleep w;
     n_clock := n_clock w; n_time := n_time w;
     trace := trace w; tick_task := s |}.

Definition count_http (w : world) : world :=
  {| clock := clock w; n_http := S (n_http w); n_sleep := n_sleep w;
     n_clock := n_clock w; n_time := n_time w;
     trace := trace w; tick_task := tick_task w |}.

Definition count_sleep (w : world) : world :=
  {| clock := clock w; n_http := n_http w; n_sleep := S (n_sleep w);
     n_clock := n_clock w; n_time := n_time w;
     trace := trace w; tick_task := tick_task w |}.

Definition count_clock (w : world) : world :=
  {| clock := clock w; n_http := n_http w; n_sleep := n_sleep w;
     n_clock := S (n_clock w); n_time := n_time w;
     trace := trace w; tick_task := tick_task w |}.

Definition count_time (w : world) : world :=
  {| clock := clock w; n_http := n_http w; n_sleep := n_sleep w;
     n_clock := n_clock w; n_time := S (n_time w);
     trace := trace w; tick_task := tick_task w |}.

Definition world0 : world :=
  {| clock := 0; n_http := 0; n_sleep := 0; n_clock := 0; n_time := 0;
     trace := []; tick_task := NoTask |}.

(** ** The monad: state, exceptions, and no answer at all

    A computation takes the world and gives a value or a raised
    exception, with the world it leaves; [None] is a computation that
    never finishes (the loop out of fuel, an [await] on a task that never
    ends). *)
Definition M (A : Type) : Type := world → option (result A * world).

Definition ret {A} (a : A) : M A := λ w, Some (Ok a, w).
Definition raise {A} (e : exn) : M A := λ w, Some (Raise e, w).
Definition lift {A} (r : result A) : M A := λ w, Some (r, w).
Definition bind {A B} (m : M A) (k : A → M B) : M B := λ w,
  match m w with
  | None => None
  | Some (Ok a, w') => k a w'
  | Some (Raise e, w') => Some (Raise e, w')
  end.

Declare Scope M_scope.
Delimit Scope M_scope with M.
Notation "x <- m ;; k" := (bind m (λ x, k))
  (at level 100, m at next level, right associativity) : M_scope.
Notation "m ;; k" := (bind m (λ _, k))
  (at level 100, right associativity) : M_scope.

(** [try: body finally: final] *)
Definition try_finally {A} (body : M A) (final : M unit) : M A := λ w,
  match body w with
  | None => None
  | Some (r, w1) =>
      match final w1 with
      | None => None
      | Some (Ok _, w2) => Some (r, w2)
      | Some (Raise e, w2) => Some (Raise e, w2)
      end
  end.

(** [with contextlib.suppress(BaseException): m] *)
Definition suppress (m : M unit) : M unit := λ w,
  match m w with
  | None => None
  | Some (_, w') => Some (Ok tt, w')
  end.

(** ** Constants *)

Definition API_BASE_URL : string := "https://40001.cch137.com/obj-dsgn".
Definition DEFAULT_WAIT_TIMEOUT_SEC : Z := 30.
Definition DEFAULT_OVERALL_WAIT_TIMEOUT_SEC : option Z := Some (10 * 60).

Section Script.
Context {rt : Runtime} (E : env).
Local Open Scope M_scope.

(** ** Effects *)

Definition log_info (l : log_line) : M unit := λ w, Some (Ok tt, emit (EvLog l) w).

Definition time_perf_counter : M Q := λ w,
  let t := (clock w + drift E (n_clock w))%Q in
  Some (Ok t, emit (EvPerfCounter t) (count_clock (set_clock t w))).

(** [int(time.time() * 1000)] *)
Definition time_time_ms : M Z := λ w,
  let ms := time_ms E (n_time w) in
  Some (Ok ms, emit (EvTime ms) (count_time w)).

(** One scheduling of the [_ticker] coroutine. Its body is a [try] around
    an endless loop of [print] and [await asyncio.sleep(0.2)], with
    [except asyncio.CancelledError: return]. Resumed normally it prints
    and suspends in the [sleep] again. With [CancelledError] thrown into
    it, it returns if it is suspended in the [sleep] (inside the [try]),
    and ends cancelled if its body was never entered. How many lines it
    prints depends on the load and is not modelled. *)
Definition _ticker (started cancel : bool) : task_state :=
  if cancel then
    if started then TaskDone false else TaskDone true
  else TaskPending true false.

(** The main coroutine is suspended and the event loop runs what is
    ready. *)
Definition run_ready (w : world) : world :=
  match tick_task w with
  | TaskPending started must_cancel => set_task (_ticker started must_cancel) w
  | _ => w
  end.

Definition create_task : M unit := λ w,
  Some (Ok tt, emit EvCreateTask (set_task (TaskPending false false) w)).

(** [tick_task.cancel()] *)
Definition task_cancel : M unit := λ w,
  let w' := emit EvCancelTask w in
  match tick_task w with
  | TaskPending started _ => Some (Ok tt, set_task (TaskPending started true) w')
  | _ => Some (Ok tt, w')
  end.

(** [await tick_task]: the event loop runs the task until it is done.
    A pending task that nobody cancelled never is: [_ticker] has no
    other way out of its loop. *)
Definition await_task : M unit := λ w,
  let w' := emit EvAwaitTask w in
  match tick_task w with
  | NoTask => Some (Ok tt, w')
  | TaskDone cancelled =>
      Some (if cancelled then Raise CancelledError else Ok tt, w')
  | TaskPending started must_cancel =>
      if must_cancel then
        match _ticker started true with
        | TaskDone cancelled =>
            Some (if cancelled then Raise CancelledError else Ok tt,
                  set_task (TaskDone cancelled) w')
        | _ => None
        end
      else None
  end.

Definition print_blank : M unit := λ w, Some (Ok tt, emit EvPrint w).

(** [await asyncio.sleep(delay)] *)
Definition sleep (delay : Q) : M unit := λ w,
  let '(took, interrupted) := asyncio_sleep E (n_sleep w) delay in
  let w' := run_ready (set_clock (clock w + took)%Q
                         (count_sleep (emit (EvSleep delay) w))) in
  match interrupted with
  | None => Some (Ok tt, w')
  | Some e => Some (Raise e, w')
  end.

(** [request.urlopen(req, timeout=...)] *)
Definition request_urlopen (req : request) : M urlopen_result := λ w,
  let '(took, answer) := urlopen E (n_http w) req in
  Some (Ok answer,
        set_clock (clock w + took)%Q (count_http (emit (EvHttp req) w))).

(** [await asyncio.to_thread(f, ...)] *)
Definition to_thread {A} (f : M A) : M A := λ w,
  match f w with
  | None => None
  | Some (r, w') => Some (r, run_ready w')
  end.

(** ** HTTP *)

(** [json.loads(raw.decode("utf-8"))] *)
Definition parse_json (raw : bytes) : result json :=
  match utf8_decode raw ≫= json_loads with
  | Some j => Ok j
  | None => Raise ValueError
  end.

Definition _read_json_bytes (raw : bytes) : result json :=
  except_Exception (parse_json raw)
    (Raise (RuntimeError (JStr ("Non-JSON response: " ++ py_repr (take 200 raw))))).

(** What [_sync_http_json] makes of the outcome of [urlopen]: the [with]
    block for a response, the [except error.HTTPError] block for an
    error response. *)
Definition json_of_answer (answer : urlopen_result) : result (Z * json) :=
  match answer with
  | Response status body _ =>
      (let? j := _read_json_bytes body in Ok (status, j))%result
  | ErrorResponse code body =>
      except_Exception
        (let? j := parse_json body in Ok (code, j))%result
        (Ok (code, JObj (<["success" := JBool false]>
                         (<["error" := JStr (utf8_decode_replace body)]> ∅))))
  | Failure e => Raise e
  end.

Definition _sync_http_json (method url : string) (payload : option json)
  : M (Z * json) :=
  answer <- request_urlopen {| method := method; url := url; payload := payload |} ;;
  lift (json_of_answer answer).

Definition _sync_http_text (method url : string) : M string :=
  answer <- request_urlopen {| method := method; url := url; payload := None |} ;;
  match answer with
  | Response _ body _ =>
      match utf8_decode body with
      | Some s => ret s
      | None => raise ValueError
      end
  | ErrorResponse code _ => raise (HTTPError code)
  | Failure e => raise e
  end.

(** What [_sync_http_bytes_with_content_type] makes of the outcome of
    [urlopen]. In the [except error.HTTPError] block the [raise
    RuntimeError(j.get("error") or str(j))] stands inside the [try]
    whose [except Exception] raises the body text. *)
Definition bytes_of_answer (answer : urlopen_result)
  : result (bytes * option string) :=
  match answer with
  | Response _ body content_type => Ok (body, content_type)
  | ErrorResponse _ body =>
      except_Exception
        (let? j := parse_json body in
         let? e := py_get j "error" in
         Raise (RuntimeError (py_or e (JStr (py_str j)))))%result
        (Raise (RuntimeError (JStr (utf8_decode_replace body))))
  | Failure e => Raise e
  end.

Definition _sync_http_bytes_with_content_type (method url : string)
  : M (bytes * option string) :=
  answer <- request_urlopen {| method := method; url := url; payload := None |} ;;
  lift (bytes_of_answer answer).

Definition http_json (method url : string) (payload : option json)
  : M (Z * json) :=
  to_thread (_sync_http_json method url payload).

Definition http_text (method url : string) : M string :=
  to_thread (_sync_http_text method url).

Definition http_bytes_with_content_type (method url : string)
  : M (bytes * option string) :=
  to_thread (_sync_http_bytes_with_content_type method url).

(** ** Coroutines *)

Definition make_version : M string :=
  ms <- time_time_ms ;;
  ret (pretty ms).

(** [status != 200 or not resp.get("success")] *)
Definition not_success (status : Z) (resp : json) : result bool :=
  if negb (status =? 200)%Z then Ok true
  else (let? s := py_get resp "success" in Ok (negb (truthy s)))%result.

Definition create_generation (object_name object_description model : string)
  : M ObjectMetadata :=
  version <- make_version ;;
  log_info (LogCreate object_name version model) ;;
  sr <- http_json "POST" (API_BASE_URL ++ "/generations")
          (Some (JObj (<["version" := JStr version]>
                      (<["languageModel" := JStr model]>
                      (<["props" := JObj (<["object_name" := JStr object_name]>
                                         (<["object_description" := JStr object_description]> ∅))]>
                       ∅))))) ;;
  let '(status, resp) := sr in
  bad <- lift (not_success status resp) ;;
  if bad : bool then
    e <- lift (py_get resp "error") ;;
    raise (RuntimeError
             (py_or e (JStr ("Failed to create generation: " ++ py_str resp))))
  else
    data <- lift (py_subscript resp "data") ;;
    task_id <- lift (py_subscript data "id") ;;
    match task_id with
    | JStr task_id =>
        log_info (LogCreated task_id) ;;
        ret {| id := task_id; version := version;
               name := object_name; description := object_description |}
    | _ => raise (TypeError (Some "id is not string"))
    end.

Definition wait_url (task_id : string) (per_request_timeout_sec : Z) : string :=
  API_BASE_URL ++ "/objects/" ++ task_id ++ "?wait=true&timeout_sec="
    ++ pretty per_request_timeout_sec.

(** [deadline is not None and time.perf_counter() > deadline]: the clock
    is read only when there is a deadline. *)
Definition deadline_reached (deadline : option Q) : M bool :=
  match deadline with
  | None => ret false
  | Some d => t <- time_perf_counter ;; ret (negb (Qle_bool t d))
  end.

(** How an iteration of a [while True] loop ends, when it does not
    raise: [continue] (or the end of the body), or [return state]. *)
Inductive loop_exit :=
| Continue
| Return (state : json).

Definition wait_request (task_id : string) (per_request_timeout_sec : Z) : request :=
  {| method := "GET"; url := wait_url task_id per_request_timeout_sec;
     payload := None |}.

(** The body of the [while True] loop of [wait_until_version_final],
    [attempt] already incremented. *)
Definition wait_iteration (task_id version : string)
    (per_request_timeout_sec : Z) (overall_timeout_sec : option Z)
    (started_at : Q) (deadline : option Q) (attempt : Z) : M loop_exit :=
  late <- deadline_reached deadline ;;
  if late : bool then
    raise (TimeoutError ("Overall timeout reached ("
             ++ from_option pretty "None" overall_timeout_sec ++ "s)"))
  else
    sr <- http_json "GET" (wait_url task_id per_request_timeout_sec) None ;;
    let '(status, resp) := sr in
    if (status =? 404)%Z then
      e <- lift (py_get resp "error") ;;
      raise (RuntimeError (py_or e (JStr "Object not found")))
    else
      bad <- lift (not_success status resp) ;;
      if bad : bool then
        e <- lift (py_get resp "error") ;;
        raise (RuntimeError (py_or e (JStr ("Wait failed: " ++ py_str resp))))
      else
        state <- lift (py_subscript resp "data") ;;
        st <- lift (get_version_status state version) ;;
        match st with
        | None =>
            log_info (LogNotFoundYet attempt) ;;
            sleep (1 # 10) ;;
            ret Continue
        | Some processing =>
            log_info (LogProcessing attempt) ;;
            ret Continue
        | Some failed =>
            lift (raise_if_failed state version) ;;
            raise (RuntimeError (JStr "Generation failed"))
        | Some succeeded =>
            t <- time_perf_counter ;;
            log_info (LogDone (t - started_at)%Q) ;;
            ret (Return state)
        end.

(** The loop itself, [attempt] being the counter before the iteration.
    Out of fuel it has no result. *)
Fixpoint wait_loop (fuel : nat) (task_id version : string)
    (per_request_timeout_sec : Z) (overall_timeout_sec : option Z)
    (started_at : Q) (deadline : option Q) (attempt : Z) : M json :=
  match fuel with
  | O => λ _, None
  | S fuel' =>
      exit <- wait_iteration task_id version per_request_timeout_sec
                overall_timeout_sec started_at deadline (attempt + 1) ;;
      match exit with
      | Continue =>
          wait_loop fuel' task_id version per_request_timeout_sec
            overall_timeout_sec started_at deadline (attempt + 1)
      | Return state => ret state
      end
  end.

Definition wait_until_version_final (fuel : nat) (task_id version : string)
    (per_request_timeout_sec : Z) (overall_timeout_sec : option Z) : M json :=
  log_info (LogWait task_id version per_request_timeout_sec overall_timeout_sec) ;;
  started_at <- time_perf_counter ;;
  let deadline := (λ t : Z, (started_at + inject_Z t)%Q) <$> overall_timeout_sec in
  create_task ;;
  try_finally
    (wait_loop fuel task_id version per_request_timeout_sec
       overall_timeout_sec started_at deadline 0)
    (task_cancel ;;
     suppress await_task ;;
     print_blank).

Definition content_url (task_id version : string) : string :=
  API_BASE_URL ++ "/objects/" ++ task_id ++ "/versions/" ++ version ++ "/content".

Definition get_object_content_glb (task_id version : string)
  : M (bytes * option string) :=
  log_info (LogFetch task_id version) ;;
  http_bytes_with_content_type "GET" (content_url task_id version).

Definition debug_add_object_to_rooms (payload : json) : M unit :=
  log_info LogDebugAdd ;;
  sr <- http_json "POST" (API_BASE_URL ++ "/_debug_add_prog_obj_rooms") (Some payload) ;;
  let '(status, resp) := sr in
  bad <- lift (not_success status resp) ;;
  if bad : bool then
    e <- lift (py_get resp "error") ;;
    raise (RuntimeError (py_or e (JStr ("debug add failed: " ++ py_str resp))))
  else log_info LogOk.

(** [main], with the three literals of its first lines as arguments. *)
Definition main (fuel : nat) (object_name object_description model : string)
  : M unit :=
  obj <- create_generation object_name object_description model ;;
  wait_until_version_final fuel (id obj) (version obj)
    DEFAULT_WAIT_TIMEOUT_SEC DEFAULT_OVERALL_WAIT_TIMEOUT_SEC ;;
  log_info (LogVerify (version obj)) ;;
  gc <- get_object_content_glb (id obj) (version obj) ;;
  let '(glb, content_type) := gc in
  log_info (LogContent content_type (length glb)) ;;
  log_info (LogSnapshot (API_BASE_URL ++ "/objects/" ++ id obj ++ "/versions/"
                           ++ version obj ++ "/snapshot")) ;;
  debug_add_object_to_rooms
    (JObj (<["props" := JObj (<["object_name" := JStr (name obj)]>
                             (<["object_description" := JStr (description obj)]> ∅))]>
          (<["url" := JStr (content_url (id obj) (version obj))]> ∅))).

End Script.

Arguments wait_loop {rt} E !fuel _ _ _ _ _ _ _ _ /.

(** ** A runtime and an environment for examples

    The parser of the examples knows a few texts (given by name below);
    every other text is not JSON to it. The codec reads a byte as a
    character. *)

Definition task_with (status : string) : gmap string json :=
  <["version" := JStr "17"]> (<["status" := JStr status]> ∅).

Definition state_with (t : gmap string json) : json :=
  JObj {[ "tasks" := JList [JObj t] ]}.

Definition success_with (data : json) : json :=
  JObj (<["success" := JBool true]> (<["data" := data]> ∅)).

Definition example_texts : list (string * json) :=
  [ ("created", success_with (JObj {[ "id" := JStr "obj1" ]}));
    ("created-int-id", success_with (JObj {[ "id" := JInt 7 ]}));
    ("created-no-id", success_with (JObj ∅));
    ("refused", JObj (<["success" := JBool false]> (<["error" := JStr "quota"]> ∅)));
    ("not-found", JObj (<["success" := JBool false]> (<["error" := JStr "no such object"]> ∅)));
    ("processing", success_with (state_with (task_with "processing")));
    ("succeeded", success_with (state_with (task_with "succeeded")));
    ("failed-boom", success_with (state_with (<["error" := JStr "boom"]> (task_with "failed"))));
    ("failed-empty", success_with (state_with (<["error" := JStr ""]> (task_with "failed"))));
    ("queued", success_with (state_with (task_with "queued")));
    ("no-task", success_with (JObj {[ "tasks" := JList [] ]}));
    ("error-boom", JObj {[ "error" := JStr "boom" ]});
    ("ok", JObj {[ "success" := JBool true ]});
    ("null", JNull);
    ("refused-as-non-json",
     JObj (<["success" := JBool false]>
           (<["error" := JStr "Non-JSON response: b'<html>busy</html>'"]> ∅))) ].

Fixpoint assoc (l : list (string * json)) (s : string) : option json :=
  match l with
  | [] => None
  | (k, v) :: l' => if String.eqb k s then Some v else assoc l' s
  end.

Definition example_rt : Runtime := {|
  json_loads := assoc example_texts;
  utf8_decode := λ raw, Some (string_of_list_byte raw);
  utf8_decode_replace := string_of_list_byte;
  py_str := λ _, "{...}";
  py_repr := λ raw, "b'" ++ string_of_list_byte raw ++ "'";
|}.

Definition ok_200 (text : string) : urlopen_result :=
  Response 200 (list_byte_of_string text) (Some "application/json").

(** The environment of the examples answers the [k]-th request with the
    [k]-th entry of a script (after the script: a transport error), each
    after one second; a sleep takes the time asked for; the clock does
    not drift; [time.time()] is 17 ms. *)
Definition scripted (answers : list urlopen_result) : env := {|
  urlopen := λ k _, (1%Q, default (Failure (TransportError "no answer")) (answers !! k));
  asyncio_sleep := λ _ d, (d, None);
  drift := λ _, 0%Q;
  time_ms := λ _, 17%Z;
|}.

(** The requests and the sleeps among the events of a trace. *)
Definition http_requests (evs : list event) : list request :=
  omap (λ e, match e with EvHttp r => Some r | _ => None end) evs.

Definition sleeps (evs : list event) : list Q :=
  omap (λ e, match e with EvSleep d => Some d | _ => None end) evs.

(** ** What a response says

    The object state lists the tasks of the object; the task of a
    version is the first one in the list that carries it. *)

Definition other_version (version : string) (u : gmap string json) : Prop :=
  u !! "version" ≠ Some (JStr version).

Definition task_absent (version : string) (state : json) : Prop :=
  ∃ (m : gmap string json) (ts : list (gmap string json)),
    state = JObj m ∧ m !! "tasks" = Some (JList (JObj <$> ts))
    ∧ Forall (other_version version) ts.

Definition version_task (version : string) (state : json)
    (t : gmap string json) : Prop :=
  ∃ (m : gmap string json) (pre post : list (gmap string json)),
    state = JObj m ∧ m !! "tasks" = Some (JList (JObj <$> (pre ++ t :: post)%list))
    ∧ Forall (other_version version) pre
    ∧ t !! "version" = Some (JStr version).

Definition reports (version : string) (state : json) (status : string) : Prop :=
  ∃ t, version_task version state t ∧ t !! "status" = Some (JStr status).


(** The envelope of a successful reply: a true [success] and the state
    under [data]. *)
Definition success_envelope (resp : gmap string json) (state : json) : Prop :=
  truthy (default JNull (resp !! "success")) = true ∧ resp !! "data" = Some state.

(** ** The worlds along a run

    The worlds that the effects leave, named, so that a run can be
    followed by equations. *)

Section Along.
Context (E : env).

(** The world after a reading of [time.perf_counter()]. *)
Definition clock_read (w : world) : world :=
  let t := (clock w + drift E (n_clock w))%Q in
  emit (EvPerfCounter t) (count_clock (set_clock t w)).

(** The verdict of the deadline check at the head of the loop body. *)
Definition late (deadline : option Q) (w : world) : bool :=
  match deadline with
  | None => false
  | Some d => negb (Qle_bool (clock w + drift E (n_clock w)) d)
  end.

(** The world after the deadline check. *)
Definition checked (deadline : option Q) (w : world) : world :=
  match deadline with
  | None => w
  | Some _ => clock_read w
  end.

(** The world after a request that took [took]. *)
Definition polled (req : request) (took : Q) (w : world) : world :=
  run_ready (set_clock (clock w + took)%Q (count_http (emit (EvHttp req) w))).

(** The world after a sleep of [delay] that took [took]. *)
Definition slept (delay took : Q) (w : world) : world :=
  run_ready (set_clock (clock w + took)%Q (count_sleep (emit (EvSleep delay) w))).

(** The world in which the loop starts: the call is logged, the clock
    read, the progress task created. *)
Definition set_up (task_id version : string) (prt : Z) (overall : option Z)
    (w : world) : world :=
  emit EvCreateTask
    (set_task (TaskPending false false)
       (clock_read (emit (EvLog (LogWait task_id version prt overall)) w))).

(** The state in which [cancel()] and [await] leave the progress task. *)
Definition joined (s : task_state) : task_state :=
  match s with
  | NoTask => NoTask
  | TaskPending started _ => _ticker started true
  | TaskDone cancelled => TaskDone cancelled
  end.

(** The world after the [finally] block. *)
Definition cleaned_up (w : world) : world :=
  emit EvPrint (emit EvAwaitTask (emit EvCancelTask (set_task (joined (tick_task w)) w))).

End Along.

(** The progress task exists (it was created and is pending or done). *)
Definition created (w : world) : Prop := tick_task w ≠ NoTask.

(** A computation keeps the progress task in existence. *)
Definition keeps_task {A} (m : M A) : Prop :=
  ∀ w r w', created w → m w = Some (r, w') → created w'.

(** The [finally] block of [wait_until_version_final]. *)
Definition finally_block : M unit :=
  (task_cancel ;; suppress await_task ;; print_blank)%M.

(** The text of the [TimeoutError]. *)
Definition timeout_message (overall : option Z) : string :=
  "Overall timeout reached (" ++ from_option pretty "None" overall ++ "s)".

(** The request of [create_generation]. *)
Definition create_request (version object_name object_description model : string)
  : request :=
  {| method := "POST";
     url := API_BASE_URL ++ "/generations";
     payload :=
       Some (JObj (<["version" := JStr version]>
                  (<["languageModel" := JStr model]>
                  (<["props" := JObj (<["object_name" := JStr object_name]>
                                     (<["object_description" := JStr object_description]> ∅))]>
                   ∅)))) |}.

(** The world after the request of [create_generation] was answered. *)
Definition create_sent (E : env) (object_name object_description model : string)
    (took : Q) (w : world) : world :=
  let version := pretty (time_ms E (n_time w)) in
  polled (create_request version object_name object_description model) took
    (emit (EvLog (LogCreate object_name version model))
       (emit (EvTime (time_ms E (n_time w))) (count_time w))).

(** What [_sync_http_json] returns for an error reply that is not JSON. *)
Definition failure_envelope {rt : Runtime} (body : bytes) : json :=
  JObj (<["success" := JBool false]>
        (<["error" := JStr (utf8_decode_replace body)]> ∅)).

(** ** Assumptions on the environment *)

(** Every wait request is answered, after some time, by a successful
    reply whose tasks list has no task of the version. *)
Definition always_absent {rt : Runtime} (E : env) (r : request)
    (version : string) : Prop :=
  ∀ k, ∃ took a resp state,
    urlopen E k r = (took, a) ∧ (0 <= took)%Q
    ∧ json_of_answer a = Ok (200%Z, JObj resp)
    ∧ success_envelope resp state ∧ task_absent version state.

(** A sleep is not interrupted and takes at least the time asked for. *)
Definition sleeps_through (E : env) : Prop :=
  ∀ k delay, ∃ took, asyncio_sleep E k delay = (took, None) ∧ (delay <= took)%Q.

(** Time does not run backwards between two effects. *)
Definition clock_goes_on (E : env) : Prop := ∀ k, (0 <= drift E k)%Q.

(** ** More examples *)

(** The environment that answers every request with [answer], after one
    second; the rest as in [scripted]. *)
Definition repeating (answer : urlopen_result) : env := {|
  urlopen := λ _ _, (1%Q, answer);
  asyncio_sleep := λ _ d, (d, None);
  drift := λ _, 0%Q;
  time_ms := λ _, 17%Z;
|}.

(** Three replies: processing, processing, succeeded. *)
Definition pps : env :=
  scripted [ok_200 "processing"; ok_200 "processing"; ok_200 "succeeded"].

(** A body that is not JSON. *)
Definition html : bytes := list_byte_of_string "<html>busy</html>".

(** A failed task with the error message "boom". *)
Definition failed_boom_task : gmap string json :=
  <["error" := JStr "boom"]> (task_with "failed").

(** The request of [get_object_content_glb]. *)
Definition content_request (task_id version : string) : request :=
  {| method := "GET"; url := content_url task_id version; payload := None |}.

(** The payload that [main] registers with the debug endpoint, and the
    request of [debug_add_object_to_rooms]. *)
Definition debug_payload (obj : ObjectMetadata) : json :=
  JObj (<["props" := JObj (<["object_name" := JStr (name obj)]>
                          (<["object_description" := JStr (description obj)]> ∅))]>
       (<["url" := JStr (content_url (id obj) (version obj))]> ∅)).

Definition debug_request (payload : json) : request :=
  {| method := "POST"; url := API_BASE_URL ++ "/_debug_add_prog_obj_rooms";
     payload := Some payload |}.

(** The world after a call of [wait_until_version_final] whose first
    check passed and whose first reply reported "succeeded". *)
Definition waited_once (E : env) (task_id version : string) (prt T : Z)
    (took : Q) (w : world) : world :=
  let started_at := (clock w + drift E (n_clock w))%Q in
  let w1 :=
    clock_read E
      (polled (wait_request task_id prt) took
         (checked E (Some (started_at + inject_Z T)%Q)
            (set_up E task_id version prt (Some T) w))) in
  cleaned_up (emit (EvLog (LogDone (clock w1 - started_at)%Q)) w1).

(** Four replies: created, succeeded, the content, accepted. *)
Definition happy : env :=
  scripted [ok_200 "created"; ok_200 "succeeded"; Response 200 html None;
            ok_200 "ok"].

(** * Lemmas *)

(** ** The pure helpers *)

Lemma eq_str_true (x : json) (s : string) : eq_str x s = true ↔ x = JStr s.
Proof.
  destruct x; simpl; try (split; [discriminate | congruence]).
  rewrite String.eqb_eq. split; congruence.
Qed.

Lemma eq_str_false (x : json) (s : string) : eq_str x s = false ↔ x ≠ JStr s.
Proof.
  rewrite <- eq_str_true. destruct (eq_str x s); split; congruence.
Qed.

Lemma eq_str_version_other (version : string) (u : gmap string json) :
  other_version version u →
  eq_str (default JNull (u !! "version")) version = false.
Proof.
  intros Hu. apply eq_str_false. intros Heq. apply Hu.
  destruct (u !! "version") as [v|]; simpl in Heq; congruence.
Qed.

Lemma find_version_other (version : string) (pre : list (gmap string json))
    (rest : list json) :
  Forall (other_version version) pre →
  find_version ((JObj <$> pre) ++ rest)%list version = find_version rest version.
Proof.
  induction 1 as [|u pre Hu _ IH]; [reflexivity|].
  simpl. rewrite (eq_str_version_other _ _ Hu). exact IH.
Qed.

Lemma truthy_task (version : string) (t : gmap string json) :
  t !! "version" = Some (JStr version) → truthy (JObj t) = true.
Proof.
  intros Ht. simpl. rewrite bool_decide_eq_false_2; [reflexivity|].
  intros ->. rewrite lookup_empty in Ht. discriminate.
Qed.

Lemma get_version_task_absent (version : string) (state : json) :
  task_absent version state → get_version_task state version = Ok None.
Proof.
  intros (m & ts & -> & Hm & Hts). unfold get_version_task. simpl.
  rewrite Hm. simpl.
  replace (py_or (JList (JObj <$> ts)) (JList [])) with (JList (JObj <$> ts))
    by (destruct ts; reflexivity).
  simpl. rewrite <- (app_nil_r (JObj <$> ts)).
  rewrite (find_version_other _ _ _ Hts). reflexivity.
Qed.

Lemma get_version_task_found (version : string) (state : json)
    (t : gmap string json) :
  version_task version state t →
  get_version_task state version = Ok (Some (JObj t)).
Proof.
  intros (m & pre & post & -> & Hm & Hpre & Ht). unfold get_version_task.
  simpl. rewrite Hm. simpl.
  replace (py_or (JList (JObj <$> (pre ++ t :: post)%list)) (JList []))
    with (JList (JObj <$> (pre ++ t :: post)%list))
    by (destruct pre; reflexivity).
  simpl. rewrite fmap_app, (find_version_other _ _ _ Hpre).
  simpl. rewrite Ht. simpl. rewrite String.eqb_refl. reflexivity.
Qed.

Lemma get_version_status_absent (version : string) (state : json) :
  task_absent version state → get_version_status state version = Ok None.
Proof.
  intros H. unfold get_version_status.
  rewrite (get_version_task_absent _ _ H). reflexivity.
Qed.

Lemma get_version_status_found (version : string) (state : json)
    (t : gmap string json) :
  version_task version state t →
  get_version_status state version =
    let st := default JNull (t !! "status") in
    if eq_str st "processing" then Ok (Some processing)
    else if eq_str st "succeeded" then Ok (Some succeeded)
    else if eq_str st "failed" then Ok (Some failed)
    else Ok None.
Proof.
  intros H. unfold get_version_status.
  rewrite (get_version_task_found _ _ _ H).
  destruct H as (m & pre & post & _ & _ & _ & Ht).
  unfold rbind at 1. rewrite (truthy_task _ _ Ht). reflexivity.
Qed.

Lemma get_version_status_processing (version : string) (state : json) :
  reports version state "processing" →
  get_version_status state version = Ok (Some processing).
Proof.
  intros (t & Ht & Hst). rewrite (get_version_status_found _ _ _ Ht), Hst.
  reflexivity.
Qed.

Lemma get_version_status_succeeded (version : string) (state : json) :
  reports version state "succeeded" →
  get_version_status state version = Ok (Some succeeded).
Proof.
  intros (t & Ht & Hst). rewrite (get_version_status_found _ _ _ Ht), Hst.
  reflexivity.
Qed.

Lemma get_version_status_failed (version : string) (state : json) :
  reports version state "failed" →
  get_version_status state version = Ok (Some failed).
Proof.
  intros (t & Ht & Hst). rewrite (get_version_status_found _ _ _ Ht), Hst.
  reflexivity.
Qed.


Lemma raise_if_failed_failed (version : string) (state : json)
    (t : gmap string json) :
  version_task version state t →
  t !! "status" = Some (JStr "failed") →
  raise_if_failed state version =
    Raise (RuntimeError (py_or (default JNull (t !! "error"))
                           (JStr "Generation failed"))).
Proof.
  intros H Hst. unfold raise_if_failed.
  rewrite (get_version_task_found _ _ _ H).
  destruct H as (m & pre & post & _ & _ & _ & Ht).
  unfold rbind at 1. rewrite (truthy_task _ _ Ht). simpl. rewrite Hst.
  reflexivity.
Qed.

(** ** The effects, as equations *)

Section Equations.
Context {rt : Runtime} (E : env).

Lemma deadline_reached_eq (deadline : option Q) (w : world) :
  deadline_reached E deadline w = Some (Ok (late E deadline w), checked E deadline w).
Proof. destruct deadline; reflexivity. Qed.

Lemma n_http_checked (deadline : option Q) (w : world) :
  n_http (checked E deadline w) = n_http w.
Proof. destruct deadline; reflexivity. Qed.

Lemma http_json_eq (m u : string) (p : option json) (w : world)
    (took : Q) (a : urlopen_result) :
  urlopen E (n_http w) {| method := m; url := u; payload := p |} = (took, a) →
  http_json E m u p w
  = Some (json_of_answer a, polled {| method := m; url := u; payload := p |} took w).
Proof.
  intros H. unfold http_json, to_thread, _sync_http_json, bind, request_urlopen.
  rewrite H. reflexivity.
Qed.

Lemma http_bytes_eq (m u : string) (w : world) (took : Q) (a : urlopen_result) :
  urlopen E (n_http w) {| method := m; url := u; payload := None |} = (took, a) →
  http_bytes_with_content_type E m u w
  = Some (bytes_of_answer a,
          polled {| method := m; url := u; payload := None |} took w).
Proof.
  intros H. unfold http_bytes_with_content_type, to_thread,
    _sync_http_bytes_with_content_type, bind, request_urlopen.
  rewrite H. reflexivity.
Qed.

Lemma sleep_eq (delay took : Q) (interrupted : option exn) (w : world) :
  asyncio_sleep E (n_sleep w) delay = (took, interrupted) →
  sleep E delay w
  = Some (match interrupted with None => Ok tt | Some e => Raise e end,
          slept delay took w).
Proof.
  intros H. unfold sleep. rewrite H. destruct interrupted; reflexivity.
Qed.

(** The loop body up to the reply: the check passes, the request is
    answered, the reply reads as [(status, resp)]. *)
Lemma wait_iteration_reply (task_id version : string) (prt : Z)
    (overall : option Z) (started_at : Q) (deadline : option Q)
    (attempt : Z) (w : world) (took : Q) (a : urlopen_result)
    (status : Z) (resp : json) :
  late E deadline w = false →
  urlopen E (n_http w) (wait_request task_id prt) = (took, a) →
  json_of_answer a = Ok (status, resp) →
  wait_iteration E task_id version prt overall started_at deadline attempt w
  = (let w1 := polled (wait_request task_id prt) took (checked E deadline w) in
     if (status =? 404)%Z then
       bind (lift (py_get resp "error"))
         (λ e, raise (RuntimeError (py_or e (JStr "Object not found")))) w1
     else
       bind (lift (not_success status resp)) (λ bad : bool,
         if bad then
           bind (lift (py_get resp "error"))
             (λ e, raise (RuntimeError
                            (py_or e (JStr ("Wait failed: " ++ py_str resp)))))
         else
           bind (lift (py_subscript resp "data")) (λ state,
             bind (lift (get_version_status state version)) (λ st,
               match st with
               | None =>
                   bind (log_info (LogNotFoundYet attempt))
                     (λ _, bind (sleep E (1 # 10)) (λ _, ret Continue))
               | Some processing =>
                   bind (log_info (LogProcessing attempt)) (λ _, ret Continue)
               | Some failed =>
                   bind (lift (raise_if_failed state version))
                     (λ _, raise (RuntimeError (JStr "Generation failed")))
               | Some succeeded =>
                   bind (time_perf_counter E) (λ t,
                     bind (log_info (LogDone (t - started_at)%Q))
                       (λ _, ret (Return state)))
               end))) w1).
Proof.
  intros Hlate Ha Hj. unfold wait_iteration.
  unfold bind at 1. rewrite deadline_reached_eq, Hlate.
  unfold bind at 1. rewrite <- (n_http_checked deadline) in Ha.
  unfold wait_request in Ha. rewrite (http_json_eq _ _ _ _ _ _ Ha), Hj.
  cbv zeta. destruct (status =? 404)%Z; reflexivity.
Qed.

End Equations.

(** ** The loop, case by case *)

Section Loop.
Context {rt : Runtime} (E : env).
Variables (task_id version : string) (prt : Z) (overall : option Z).
Variables (started_at : Q) (deadline : option Q).

Local Abbreviation iteration :=
  (wait_iteration E task_id version prt overall started_at deadline).
Local Abbreviation loop fuel :=
  (wait_loop E fuel task_id version prt overall started_at deadline).
Local Abbreviation req := (wait_request task_id prt).

Lemma wait_iteration_late (attempt : Z) (w : world) :
  late E deadline w = true →
  iteration attempt w
  = Some (Raise (TimeoutError (timeout_message overall)), checked E deadline w).
Proof.
  intros Hlate. unfold wait_iteration, bind.
  rewrite deadline_reached_eq, Hlate. reflexivity.
Qed.

(** A reply with status 200 and a true [success]: the body goes on to
    the status of the version's task. *)
Lemma wait_iteration_state (attempt : Z) (w : world) (took : Q)
    (a : urlopen_result) (resp : gmap string json) (state : json)
    (st : option TaskStatus) :
  late E deadline w = false →
  urlopen E (n_http w) req = (took, a) →
  json_of_answer a = Ok (200%Z, JObj resp) →
  success_envelope resp state →
  get_version_status state version = Ok st →
  iteration attempt w
  = match st with
    | None =>
        bind (log_info (LogNotFoundYet attempt))
          (λ _, bind (sleep E (1 # 10)) (λ _, ret Continue))
    | Some processing =>
        bind (log_info (LogProcessing attempt)) (λ _, ret Continue)
    | Some failed =>
        bind (lift (raise_if_failed state version))
          (λ _, raise (RuntimeError (JStr "Generation failed")))
    | Some succeeded =>
        bind (time_perf_counter E) (λ t,
          bind (log_info (LogDone (t - started_at)%Q))
            (λ _, ret (Return state)))
    end (polled req took (checked E deadline w)).
Proof.
  intros Hlate Ha Hj [Hsuccess Hdata] Hst.
  rewrite (wait_iteration_reply E _ _ _ _ _ _ _ _ _ _ _ _ Hlate Ha Hj).
  cbv zeta. change (200 =? 404)%Z with false. cbv iota.
  unfold bind at 1, lift at 1, not_success. simpl.
  rewrite Hsuccess. simpl.
  unfold bind at 1, lift at 1. rewrite Hdata.
  unfold bind at 1, lift at 1. rewrite Hst. reflexivity.
Qed.

Lemma wait_loop_late (fuel : nat) (attempt : Z) (w : world) :
  late E deadline w = true →
  loop (S fuel) attempt w
  = Some (Raise (TimeoutError (timeout_message overall)), checked E deadline w).
Proof.
  intros Hlate. simpl. unfold bind at 1.
  rewrite (wait_iteration_late _ _ Hlate). reflexivity.
Qed.

Lemma wait_loop_processing (fuel : nat) (attempt : Z) (w : world) (took : Q)
    (a : urlopen_result) (resp : gmap string json) (state : json) :
  late E deadline w = false →
  urlopen E (n_http w) req = (took, a) →
  json_of_answer a = Ok (200%Z, JObj resp) →
  success_envelope resp state →
  reports version state "processing" →
  loop (S fuel) attempt w
  = loop fuel (attempt + 1)%Z
      (emit (EvLog (LogProcessing (attempt + 1)))
         (polled req took (checked E deadline w))).
Proof.
  intros Hlate Ha Hj Henv Hst. simpl. unfold bind at 1.
  rewrite (wait_iteration_state _ _ _ _ _ _ _ Hlate Ha Hj Henv
             (get_version_status_processing _ _ Hst)).
  reflexivity.
Qed.

Lemma wait_loop_succeeded (fuel : nat) (attempt : Z) (w : world) (took : Q)
    (a : urlopen_result) (resp : gmap string json) (state : json) :
  late E deadline w = false →
  urlopen E (n_http w) req = (took, a) →
  json_of_answer a = Ok (200%Z, JObj resp) →
  success_envelope resp state →
  reports version state "succeeded" →
  loop (S fuel) attempt w
  = let w1 := clock_read E (polled req took (checked E deadline w)) in
    Some (Ok state, emit (EvLog (LogDone (clock w1 - started_at)%Q)) w1).
Proof.
  intros Hlate Ha Hj Henv Hst. simpl. unfold bind at 1.
  rewrite (wait_iteration_state _ _ _ _ _ _ _ Hlate Ha Hj Henv
             (get_version_status_succeeded _ _ Hst)).
  reflexivity.
Qed.

(** No task for the version in the state (or one whose status the
    client does not know): the body logs, sleeps and goes round. *)
Lemma wait_iteration_not_visible (attempt : Z) (w : world) (took : Q)
    (a : urlopen_result) (resp : gmap string json) (state : json)
    (nap : Q) (interrupted : option exn) :
  late E deadline w = false →
  urlopen E (n_http w) req = (took, a) →
  json_of_answer a = Ok (200%Z, JObj resp) →
  success_envelope resp state →
  get_version_status state version = Ok None →
  asyncio_sleep E (n_sleep w) (1 # 10) = (nap, interrupted) →
  iteration attempt w
  = Some (match interrupted with None => Ok Continue | Some e => Raise e end,
          slept (1 # 10) nap
            (emit (EvLog (LogNotFoundYet attempt))
               (polled req took (checked E deadline w)))).
Proof.
  intros Hlate Ha Hj Henv Hst Hnap.
  rewrite (wait_iteration_state _ _ _ _ _ _ _ Hlate Ha Hj Henv Hst).
  unfold bind at 1, log_info at 1. unfold bind at 1.
  rewrite (sleep_eq E (1 # 10) nap interrupted).
  - destruct interrupted; reflexivity.
  - rewrite <- Hnap. f_equal. destruct deadline; unfold polled, run_ready; simpl;
      destruct (tick_task w); reflexivity.
Qed.

Lemma wait_loop_not_visible (fuel : nat) (attempt : Z) (w : world) (took : Q)
    (a : urlopen_result) (resp : gmap string json) (state : json) (nap : Q) :
  late E deadline w = false →
  urlopen E (n_http w) req = (took, a) →
  json_of_answer a = Ok (200%Z, JObj resp) →
  success_envelope resp state →
  get_version_status state version = Ok None →
  asyncio_sleep E (n_sleep w) (1 # 10) = (nap, None) →
  loop (S fuel) attempt w
  = loop fuel (attempt + 1)%Z
      (slept (1 # 10) nap
         (emit (EvLog (LogNotFoundYet (attempt + 1)))
            (polled req took (checked E deadline w)))).
Proof.
  intros Hlate Ha Hj Henv Hst Hnap. simpl. unfold bind at 1.
  rewrite (wait_iteration_not_visible _ _ _ _ _ _ _ _ Hlate Ha Hj Henv Hst Hnap).
  reflexivity.
Qed.

End Loop.

(** ** The worlds the loop goes through *)

Section Worlds.
Context (E : env).

Lemma created_run_ready (w : world) : created w → created (run_ready w).
Proof.
  unfold created, run_ready.
  destruct (tick_task w) as [|s c|c] eqn:Hw; [congruence| |rewrite Hw; auto].
  intros _. destruct s, c; discriminate.
Qed.

Lemma trace_checked (deadline : option Q) (w : world) :
  trace (checked E deadline w)
  = (trace w ++ match deadline with
                | None => []
                | Some _ => [EvPerfCounter (clock w + drift E (n_clock w))%Q]
                end)%list.
Proof. destruct deadline; simpl; [reflexivity | symmetry; apply app_nil_r]. Qed.

Lemma trace_run_ready (w : world) : trace (run_ready w) = trace w.
Proof. unfold run_ready. destruct (tick_task w); reflexivity. Qed.

Lemma trace_polled (r : request) (took : Q) (w : world) :
  trace (polled r took w) = (trace w ++ [EvHttp r])%list.
Proof. unfold polled. rewrite trace_run_ready. reflexivity. Qed.


Lemma n_http_run_ready (w : world) : n_http (run_ready w) = n_http w.
Proof. unfold run_ready. destruct (tick_task w); reflexivity. Qed.

Lemma n_http_polled (r : request) (took : Q) (w : world) :
  n_http (polled r took w) = S (n_http w).
Proof. unfold polled. rewrite n_http_run_ready. reflexivity. Qed.

Lemma n_http_slept (delay took : Q) (w : world) :
  n_http (slept delay took w) = n_http w.
Proof. unfold slept. rewrite n_http_run_ready. reflexivity. Qed.

Lemma n_sleep_run_ready (w : world) : n_sleep (run_ready w) = n_sleep w.
Proof. unfold run_ready. destruct (tick_task w); reflexivity. Qed.

Lemma n_sleep_polled (r : request) (took : Q) (w : world) :
  n_sleep (polled r took w) = n_sleep w.
Proof. unfold polled. rewrite n_sleep_run_ready. reflexivity. Qed.

Lemma n_sleep_slept (delay took : Q) (w : world) :
  n_sleep (slept delay took w) = S (n_sleep w).
Proof. unfold slept. rewrite n_sleep_run_ready. reflexivity. Qed.

Lemma n_sleep_checked (deadline : option Q) (w : world) :
  n_sleep (checked E deadline w) = n_sleep w.
Proof. destruct deadline; reflexivity. Qed.

Lemma clock_run_ready (w : world) : clock (run_ready w) = clock w.
Proof. unfold run_ready. destruct (tick_task w); reflexivity. Qed.

Lemma clock_polled (r : request) (took : Q) (w : world) :
  clock (polled r took w) = (clock w + took)%Q.
Proof. unfold polled. rewrite clock_run_ready. reflexivity. Qed.

Lemma clock_slept (delay took : Q) (w : world) :
  clock (slept delay took w) = (clock w + took)%Q.
Proof. unfold slept. rewrite clock_run_ready. reflexivity. Qed.

Lemma created_polled (r : request) (took : Q) (w : world) :
  created w → created (polled r took w).
Proof. intros H. unfold polled. apply created_run_ready. exact H. Qed.

Lemma created_slept (delay took : Q) (w : world) :
  created w → created (slept delay took w).
Proof. intros H. unfold slept. apply created_run_ready. exact H. Qed.

Lemma created_checked (deadline : option Q) (w : world) :
  created w → created (checked E deadline w).
Proof. destruct deadline; auto. Qed.

Lemma http_requests_app (evs1 evs2 : list event) :
  http_requests (evs1 ++ evs2) = (http_requests evs1 ++ http_requests evs2)%list.
Proof. apply omap_app. Qed.

Lemma sleeps_app (evs1 evs2 : list event) :
  sleeps (evs1 ++ evs2) = (sleeps evs1 ++ sleeps evs2)%list.
Proof. apply omap_app. Qed.

End Worlds.

(** ** Around the loop *)

Section Cleanup.
Context {rt : Runtime} (E : env).

Lemma finally_block_eq (w : world) :
  finally_block w = Some (Ok tt, cleaned_up w).
Proof.
  unfold finally_block, bind, task_cancel, suppress, await_task, print_blank,
    cleaned_up.
  destruct w as [c nh ns nc nt tr tk]. simpl.
  destruct tk as [|started must_cancel|cancelled]; simpl.
  - reflexivity.
  - destruct started; reflexivity.
  - reflexivity.
Qed.

Lemma joined_done (s : task_state) :
  s ≠ NoTask → ∃ cancelled, joined s = TaskDone cancelled.
Proof.
  destruct s as [|started must_cancel|cancelled]; [congruence| |]; intros _.
  - destruct started; simpl; eauto.
  - simpl; eauto.
Qed.

Lemma try_finally_block {A} (body : M A) (w : world) :
  try_finally body finally_block w
  = match body w with
    | None => None
    | Some (r, w') => Some (r, cleaned_up w')
    end.
Proof.
  unfold try_finally. destruct (body w) as [[r w']|]; [|reflexivity].
  rewrite finally_block_eq. reflexivity.
Qed.

Lemma wait_until_version_final_eq (fuel : nat) (task_id version : string)
    (prt : Z) (overall : option Z) (w : world) :
  wait_until_version_final E fuel task_id version prt overall w
  = let started_at := (clock w + drift E (n_clock w))%Q in
    match wait_loop E fuel task_id version prt overall started_at
            ((λ t : Z, (started_at + inject_Z t)%Q) <$> overall) 0
            (set_up E task_id version prt overall w) with
    | None => None
    | Some (r, w') => Some (r, cleaned_up w')
    end.
Proof.
  unfold wait_until_version_final.
  change (task_cancel;; suppress await_task;; print_blank)%M with finally_block.
  unfold bind at 1 2 3, log_info, time_perf_counter, create_task.
  rewrite try_finally_block. reflexivity.
Qed.

End Cleanup.

(** * The claims of the specification *)

(** ** Replies with status 404 *)

Lemma py_get_not_a_dict (x : json) (key : string) :
  (∀ m, x ≠ JObj m) → py_get x key = Raise AttributeError.
Proof. intros Hx. destruct x; try reflexivity. destruct (Hx m eq_refl). Qed.

Lemma error_answer_reads_json {rt : Runtime} (code : Z) (body : bytes)
    (j : json) :
  parse_json body = Ok j → json_of_answer (ErrorResponse code body) = Ok (code, j).
Proof. intros H. unfold json_of_answer. rewrite H. reflexivity. Qed.

Lemma error_answer_reads_text {rt : Runtime} (code : Z) (body : bytes) :
  parse_json body = Raise ValueError →
  json_of_answer (ErrorResponse code body) = Ok (code, failure_envelope body).
Proof. intros H. unfold json_of_answer. rewrite H. reflexivity. Qed.

Lemma failure_envelope_error {rt : Runtime} (body : bytes) :
  py_get (failure_envelope body) "error" = Ok (JStr (utf8_decode_replace body)).
Proof.
  unfold failure_envelope, py_get.
  rewrite lookup_insert_ne by discriminate. rewrite lookup_insert_eq.
  reflexivity.
Qed.

(** What the loop does with a reply read as [(404, resp)]. *)
Lemma wait_loop_404 {rt : Runtime} (E : env) (fuel : nat)
    (task_id version : string) (prt : Z) (overall : option Z)
    (started_at : Q) (deadline : option Q) (attempt : Z) (w : world)
    (took : Q) (a : urlopen_result) (resp : json) :
  late E deadline w = false →
  urlopen E (n_http w) (wait_request task_id prt) = (took, a) →
  json_of_answer a = Ok (404%Z, resp) →
  wait_loop E (S fuel) task_id version prt overall started_at deadline attempt w
  = Some (match py_get resp "error" with
          | Ok e => Raise (RuntimeError (py_or e (JStr "Object not found")))
          | Raise x => Raise x
          end,
          polled (wait_request task_id prt) took (checked E deadline w)).
Proof.
  intros Hlate Ha Hj. simpl. unfold bind at 1.
  rewrite (wait_iteration_reply E _ _ _ _ _ _ _ _ _ _ _ _ Hlate Ha Hj).
  cbv zeta. change (404 =? 404)%Z with true. cbv iota.
  unfold bind, lift, raise. destruct (py_get resp "error"); reflexivity.
Qed.

(** C8, as the code has it. Whatever the deadline and the moment, when
    the overall deadline has not passed at the check and the wait
    request is answered with status 404, the loop ends there, the
    request of this iteration is the last one, and nothing sleeps.
    - When the body is a JSON object, it ends with the [RuntimeError] of
      line 203 (the specification's NotFoundError), its argument being
      the object's error or "Object not found".
    - When the body is not JSON, it ends with that [RuntimeError] too,
      its argument being the text of the body, or "Object not found" for
      an empty body.
    - When the body is JSON but no object ([null], a string, a list, a
      number), [resp.get] does not exist and it ends with
      [AttributeError]. *)
Theorem wait_404_fails_not_found {rt : Runtime} (E : env) (fuel : nat)
    (task_id version : string) (prt : Z) (overall : option Z)
    (started_at : Q) (deadline : option Q) (attempt : Z) (w : world)
    (took : Q) (body : bytes) :
  late E deadline w = false →
  urlopen E (n_http w) (wait_request task_id prt)
  = (took, ErrorResponse 404 body) →
  ∃ w',
    http_requests (trace w')
    = (http_requests (trace w) ++ [wait_request task_id prt])%list
    ∧ sleeps (trace w') = sleeps (trace w)
    ∧ (∀ m, parse_json body = Ok (JObj m) →
         wait_loop E (S fuel) task_id version prt overall started_at deadline
           attempt w
         = Some (Raise (RuntimeError (py_or (default JNull (m !! "error"))
                                        (JStr "Object not found"))), w'))
    ∧ (parse_json body = Raise ValueError →
         wait_loop E (S fuel) task_id version prt overall started_at deadline
           attempt w
         = Some (Raise (RuntimeError (py_or (JStr (utf8_decode_replace body))
                                        (JStr "Object not found"))), w'))
    ∧ (∀ j, parse_json body = Ok j → (∀ m, j ≠ JObj m) →
         wait_loop E (S fuel) task_id version prt overall started_at deadline
           attempt w
         = Some (Raise AttributeError, w')).
Proof.
  intros Hlate Ha.
  exists (polled (wait_request task_id prt) took (checked E deadline w)).
  split; [|split; [|split; [|split]]].
  - rewrite trace_polled, trace_checked, !http_requests_app.
    destruct deadline; simpl; rewrite !app_nil_r; reflexivity.
  - rewrite trace_polled, trace_checked, !sleeps_app.
    destruct deadline; simpl; rewrite !app_nil_r; reflexivity.
  - intros m Hm.
    rewrite (wait_loop_404 E _ _ _ _ _ _ _ _ _ _ _ _ Hlate Ha
               (error_answer_reads_json _ _ _ Hm)).
    reflexivity.
  - intros Htext.
    rewrite (wait_loop_404 E _ _ _ _ _ _ _ _ _ _ _ _ Hlate Ha
               (error_answer_reads_text _ _ Htext)).
    rewrite failure_envelope_error. reflexivity.
  - intros j Hj Hnodict.
    rewrite (wait_loop_404 E _ _ _ _ _ _ _ _ _ _ _ _ Hlate Ha
               (error_answer_reads_json _ _ _ Hj)).
    rewrite (py_get_not_a_dict _ _ Hnodict). reflexivity.
Qed.

Lemma wait_404_fails_not_found_witness :
  ∃ w',
    wait_loop (rt := example_rt)
      (scripted [ErrorResponse 404 (list_byte_of_string "not-found")])
      1 "obj1" "17" 30 (Some 600%Z) 0 (Some 600%Q) 0 world0
    = Some (Raise (RuntimeError (JStr "no such object")), w')
    ∧ http_requests (trace w') = [wait_request "obj1" 30]
    ∧ sleeps (trace w') = [].
Proof.
  destruct (wait_404_fails_not_found (rt := example_rt)
              (scripted [ErrorResponse 404 (list_byte_of_string "not-found")])
              0 "obj1" "17" 30 (Some 600%Z) 0 (Some 600%Q) 0 world0 1
              (list_byte_of_string "not-found"))
    as (w' & Hreq & Hsleep & Hobject & _); [vm_compute; reflexivity ..|].
  exists w'. split; [|split; [exact Hreq | exact Hsleep]].
  assert (Hparse : parse_json (rt := example_rt) (list_byte_of_string "not-found")
                   = Ok (JObj (<["success" := JBool false]>
                                 (<["error" := JStr "no such object"]> ∅))))
    by (vm_compute; reflexivity).
  exact (Hobject _ Hparse).
Defined.

(** C8, as stated, fails for a 404 whose body is JSON but no object:
    the body [null] is read as [None], and the call ends with
    [AttributeError], not with the [RuntimeError] of line 203. *)
Lemma wait_404_null_body_counterexample :
  json_of_answer (rt := example_rt) (ErrorResponse 404 (list_byte_of_string "null"))
  = Ok (404%Z, JNull)
  ∧ (∃ w',
       wait_until_version_final (rt := example_rt)
         (scripted [ErrorResponse 404 (list_byte_of_string "null")])
         1 "obj1" "17" 30 (Some 600%Z) world0
       = Some (Raise AttributeError, w'))
  ∧ (∀ arg, AttributeError ≠ RuntimeError arg).
Proof.
  split; [vm_compute; reflexivity|].
  split; [eexists; vm_compute; reflexivity | discriminate].
Qed.

(** ** A failed task *)

(** C3, as the code has it. When the overall deadline has not passed at
    the check and the wait request is answered by a successful reply in
    which the version's task has status "failed", the loop ends there
    with the [RuntimeError] of [raise_if_failed] (the specification's
    GenerationFailedError). Its argument is the task's ["error"] when
    that is true in Python's sense (a non-empty message, in particular),
    and "Generation failed" when the task has no ["error"] or a false
    one. *)
Theorem wait_failed_raises_generation_failed {rt : Runtime} (E : env)
    (fuel : nat) (task_id version : string) (prt : Z) (overall : option Z)
    (started_at : Q) (deadline : option Q) (attempt : Z) (w : world)
    (took : Q) (a : urlopen_result) (resp : gmap string json) (state : json)
    (t : gmap string json) :
  late E deadline w = false →
  urlopen E (n_http w) (wait_request task_id prt) = (took, a) →
  json_of_answer a = Ok (200%Z, JObj resp) →
  success_envelope resp state →
  version_task version state t →
  t !! "status" = Some (JStr "failed") →
  ∃ arg w',
    wait_loop E (S fuel) task_id version prt overall started_at deadline attempt w
    = Some (Raise (RuntimeError arg), w')
    ∧ (∀ x, t !! "error" = Some x → truthy x = true → arg = x)
    ∧ (∀ x, t !! "error" = Some x → truthy x = false →
         arg = JStr "Generation failed")
    ∧ (t !! "error" = None → arg = JStr "Generation failed").
Proof.
  intros Hlate Ha Hj Henv Ht Hst.
  exists (py_or (default JNull (t !! "error")) (JStr "Generation failed")).
  eexists. split.
  - simpl. unfold bind at 1.
    rewrite (wait_iteration_state E _ _ _ _ _ _ _ _ _ _ _ _ _ Hlate Ha Hj Henv
               (get_version_status_failed _ _ (ex_intro _ t (conj Ht Hst)))).
    unfold bind at 1, lift at 1.
    rewrite (raise_if_failed_failed _ _ _ Ht Hst). reflexivity.
  - unfold py_or. repeat split.
    + intros x -> Hx. simpl. rewrite Hx. reflexivity.
    + intros x -> Hx. simpl. rewrite Hx. reflexivity.
    + intros ->. reflexivity.
Qed.

Lemma wait_failed_raises_generation_failed_witness :
  ∃ arg w',
    wait_loop (rt := example_rt) (scripted [ok_200 "failed-boom"])
      1 "obj1" "17" 30 (Some 600%Z) 0 (Some 600%Q) 0 world0
    = Some (Raise (RuntimeError arg), w')
    ∧ arg = JStr "boom".
Proof.
  destruct (wait_failed_raises_generation_failed (rt := example_rt)
              (scripted [ok_200 "failed-boom"])
              0 "obj1" "17" 30 (Some 600%Z) 0 (Some 600%Q) 0 world0 1
              (ok_200 "failed-boom")
              (<["success" := JBool true]>
                 (<["data" := state_with failed_boom_task]> ∅))
              (state_with failed_boom_task) failed_boom_task)
    as (arg & w' & Hrun & Htrue & _).
  - vm_compute; reflexivity.
  - vm_compute; reflexivity.
  - vm_compute; reflexivity.
  - split; vm_compute; reflexivity.
  - exists {[ "tasks" := JList [JObj failed_boom_task] ]}, [], [].
    split; [reflexivity|]. split; [vm_compute; reflexivity|].
    split; [constructor | vm_compute; reflexivity].
  - vm_compute; reflexivity.
  - exists arg, w'. split; [exact Hrun|].
    apply Htrue; vm_compute; reflexivity.
Defined.

(** C3, as stated, fails for the empty message: the task of version
    "17" is failed and carries the error message [""], and the call
    raises "Generation failed", not [""]. *)
Lemma failed_empty_message_counterexample :
  let t := <["error" := JStr ""]> (task_with "failed") in
  version_task "17" (state_with t) t
  ∧ t !! "status" = Some (JStr "failed")
  ∧ t !! "error" = Some (JStr "")
  ∧ json_of_answer (rt := example_rt) (ok_200 "failed-empty")
    = Ok (200%Z, success_with (state_with t))
  ∧ ∃ w',
      wait_until_version_final (rt := example_rt)
        (scripted [ok_200 "failed-empty"]) 1 "obj1" "17" 30 (Some 600%Z) world0
      = Some (Raise (RuntimeError (JStr "Generation failed")), w')
  ∧ RuntimeError (JStr "Generation failed") ≠ RuntimeError (JStr "").
Proof.
  cbv zeta. split; [|split; [|split; [|split]]].
  - exists {[ "tasks" := JList [JObj (<["error" := JStr ""]> (task_with "failed"))] ]},
      [], [].
    split; [reflexivity|]. split; [vm_compute; reflexivity|].
    split; [constructor | vm_compute; reflexivity].
  - vm_compute; reflexivity.
  - vm_compute; reflexivity.
  - vm_compute; reflexivity.
  - eexists. split; [vm_compute; reflexivity | discriminate].
Qed.

(** ** A task that is not visible *)





(** ** Error replies to the content request *)

Lemma parse_json_cases {rt : Runtime} (raw : bytes) :
  (∃ j, parse_json raw = Ok j) ∨ parse_json raw = Raise ValueError.
Proof.
  unfold parse_json. destruct (utf8_decode raw ≫= json_loads); eauto.
Qed.

Lemma bytes_of_error_answer {rt : Runtime} (code : Z) (body : bytes) :
  bytes_of_answer (ErrorResponse code body)
  = Raise (RuntimeError (JStr (utf8_decode_replace body))).
Proof.
  unfold bytes_of_answer.
  destruct (parse_json_cases body) as [[j ->] | ->]; [|reflexivity].
  destruct j; reflexivity.
Qed.

(** C6, as the code has it. Whatever the error reply to the content
    request holds, [get_object_content_glb] fails with a [RuntimeError]
    whose message is the text of the body: the [RuntimeError] made of the
    server's error field is raised inside the [try] and replaced by the
    handler of that same [try]. *)
Theorem fetch_content_error_is_body_text {rt : Runtime} (E : env)
    (task_id version : string) (w : world) (took : Q) (code : Z) (body : bytes) :
  urlopen E (n_http w)
    {| method := "GET"; url := content_url task_id version; payload := None |}
  = (took, ErrorResponse code body) →
  ∃ w',
    get_object_content_glb E task_id version w
    = Some (Raise (RuntimeError (JStr (utf8_decode_replace body))), w').
Proof.
  intros Ha. eexists. unfold get_object_content_glb, bind, log_info.
  rewrite (http_bytes_eq E _ _ _ took (ErrorResponse code body)) by exact Ha.
  rewrite bytes_of_error_answer. reflexivity.
Qed.

(** The error reply of the example is a JSON object with the error
    field "boom"; the call fails with the text of the body. *)
Lemma fetch_content_error_is_body_text_witness :
  parse_json (rt := example_rt) (list_byte_of_string "error-boom")
  = Ok (JObj {[ "error" := JStr "boom" ]})
  ∧ ∃ w',
      get_object_content_glb (rt := example_rt)
        (scripted [ErrorResponse 500 (list_byte_of_string "error-boom")])
        "obj1" "17" world0
      = Some (Raise (RuntimeError (JStr "error-boom")), w').
Proof.
  split; [vm_compute; reflexivity|].
  apply (fetch_content_error_is_body_text (rt := example_rt)
           (scripted [ErrorResponse 500 (list_byte_of_string "error-boom")])
           "obj1" "17" world0 1 500 (list_byte_of_string "error-boom")).
  vm_compute; reflexivity.
Defined.

(** ** The progress task *)

Section Created.
Context {rt : Runtime} (E : env).

Lemma keeps_ret {A} (a : A) : keeps_task (ret a).
Proof. intros w r w' Hw [= _ <-]. exact Hw. Qed.

Lemma keeps_raise {A} (e : exn) : keeps_task (raise (A := A) e).
Proof. intros w r w' Hw [= _ <-]. exact Hw. Qed.

Lemma keeps_lift {A} (x : result A) : keeps_task (lift x).
Proof. intros w r w' Hw [= _ <-]. exact Hw. Qed.

Lemma keeps_bind {A B} (m : M A) (k : A → M B) :
  keeps_task m → (∀ a, keeps_task (k a)) → keeps_task (bind m k).
Proof.
  intros Hm Hk w r w' Hw. unfold bind.
  destruct (m w) as [[[a|e] w1]|] eqn:Hmw; [| |discriminate].
  - intros Hkw. exact (Hk a w1 r w' (Hm _ _ _ Hw Hmw) Hkw).
  - intros [= _ <-]. exact (Hm _ _ _ Hw Hmw).
Qed.

Lemma keeps_log_info (l : log_line) : keeps_task (log_info l).
Proof. intros w r w' Hw [= _ <-]. exact Hw. Qed.

Lemma keeps_time_perf_counter : keeps_task (time_perf_counter E).
Proof. intros w r w' Hw [= _ <-]. exact Hw. Qed.

Lemma keeps_sleep (delay : Q) : keeps_task (sleep E delay).
Proof.
  intros w r w' Hw. destruct (asyncio_sleep E (n_sleep w) delay) as [took i] eqn:Hs.
  rewrite (sleep_eq E _ _ _ _ Hs). intros [= _ <-].
  apply created_slept. exact Hw.
Qed.

Lemma keeps_http_json (m u : string) (p : option json) :
  keeps_task (http_json E m u p).
Proof.
  intros w r w' Hw.
  destruct (urlopen E (n_http w) {| method := m; url := u; payload := p |})
    as [took a] eqn:Ha.
  rewrite (http_json_eq E _ _ _ _ _ _ Ha). intros [= _ <-].
  apply created_polled. exact Hw.
Qed.

Lemma keeps_deadline_reached (deadline : option Q) :
  keeps_task (deadline_reached E deadline).
Proof.
  intros w r w' Hw. rewrite deadline_reached_eq. intros [= _ <-].
  apply created_checked. exact Hw.
Qed.

Lemma keeps_wait_iteration (task_id version : string) (prt : Z)
    (overall : option Z) (started_at : Q) (deadline : option Q) (attempt : Z) :
  keeps_task (wait_iteration E task_id version prt overall started_at
                deadline attempt).
Proof.
  unfold wait_iteration.
  apply keeps_bind; [apply keeps_deadline_reached|]. intros [|].
  { apply keeps_raise. }
  apply keeps_bind; [apply keeps_http_json|]. intros [status resp].
  destruct (status =? 404)%Z.
  { apply keeps_bind; [apply keeps_lift|]. intros e. apply keeps_raise. }
  apply keeps_bind; [apply keeps_lift|]. intros [|].
  { apply keeps_bind; [apply keeps_lift|]. intros e. apply keeps_raise. }
  apply keeps_bind; [apply keeps_lift|]. intros state.
  apply keeps_bind; [apply keeps_lift|]. intros [[| |]|].
  - apply keeps_bind; [apply keeps_log_info|]. intros _. apply keeps_ret.
  - apply keeps_bind; [apply keeps_time_perf_counter|]. intros t.
    apply keeps_bind; [apply keeps_log_info|]. intros _. apply keeps_ret.
  - apply keeps_bind; [apply keeps_lift|]. intros _. apply keeps_raise.
  - apply keeps_bind; [apply keeps_log_info|]. intros _.
    apply keeps_bind; [apply keeps_sleep|]. intros _. apply keeps_ret.
Qed.

Lemma keeps_wait_loop (fuel : nat) (task_id version : string) (prt : Z)
    (overall : option Z) (started_at : Q) (deadline : option Q) (attempt : Z) :
  keeps_task (wait_loop E fuel task_id version prt overall started_at
                deadline attempt).
Proof.
  revert attempt. induction fuel as [|fuel IH]; intros attempt.
  - intros w r w' _ [=].
  - simpl. apply keeps_bind; [apply keeps_wait_iteration|].
    intros [|state]; [apply IH | apply keeps_ret].
Qed.

End Created.

(** C10. However a call of [wait_until_version_final] ends (with the
    state, with an exception of its own, with one the environment raised
    in a request or in the sleep, [CancelledError] among them), it ends
    through the [finally] block: the loop has ended with the same
    outcome, and after it the call has cancelled the progress task and
    awaited it, and the task is done. The last things the call does are
    [cancel()], the [await] and the blanking [print]. *)
Theorem progress_task_is_joined {rt : Runtime} (E : env) (fuel : nat)
    (task_id version : string) (prt : Z) (overall : option Z)
    (w : world) (r : result json) (w' : world) :
  wait_until_version_final E fuel task_id version prt overall w = Some (r, w') →
  ∃ w1 cancelled,
    (let started_at := (clock w + drift E (n_clock w))%Q in
     wait_loop E fuel task_id version prt overall started_at
       ((λ t : Z, (started_at + inject_Z t)%Q) <$> overall) 0
       (set_up E task_id version prt overall w) = Some (r, w1))
    ∧ tick_task w1 ≠ NoTask
    ∧ trace w' = (trace w1 ++ [EvCancelTask; EvAwaitTask; EvPrint])%list
    ∧ tick_task w' = TaskDone cancelled.
Proof.
  rewrite wait_until_version_final_eq. cbv zeta.
  match goal with |- context [wait_loop E fuel ?a ?b ?c ?d ?e ?f ?g ?h] =>
    destruct (wait_loop E fuel a b c d e f g h) as [[r1 w1]|] eqn:Hloop end;
    [|discriminate].
  intros [= <- <-].
  assert (Hcreated : created w1).
  { refine (keeps_wait_loop E _ _ _ _ _ _ _ _ _ _ _ _ Hloop).
    unfold created. simpl. discriminate. }
  destruct (joined_done _ Hcreated) as [cancelled Hjoined].
  exists w1, cancelled. split; [reflexivity|]. split; [exact Hcreated|].
  split.
  - unfold cleaned_up. simpl. rewrite <- !app_assoc. reflexivity.
  - unfold cleaned_up. simpl. exact Hjoined.
Qed.

(** Cancelled in the first request: the call ends with [CancelledError]
    and the progress task is done. *)
Lemma progress_task_is_joined_witness :
  ∃ w',
    wait_until_version_final (rt := example_rt)
      (scripted [Failure CancelledError]) 1 "obj1" "17" 30 (Some 600%Z) world0
    = Some (Raise CancelledError, w')
    ∧ tick_task w' = TaskDone false
    ∧ (∃ w1, trace w' = (trace w1 ++ [EvCancelTask; EvAwaitTask; EvPrint])%list).
Proof.
  pose (w' := cleaned_up
                (polled (wait_request "obj1" 30) 1
                   (checked (scripted [Failure CancelledError]) (Some (0 + 600)%Q)
                      (set_up (scripted [Failure CancelledError])
                         "obj1" "17" 30 (Some 600%Z) world0)))).
  assert (Hrun : wait_until_version_final (rt := example_rt)
                   (scripted [Failure CancelledError]) 1 "obj1" "17" 30
                   (Some 600%Z) world0 = Some (Raise CancelledError, w'))
    by (vm_compute; reflexivity).
  destruct (progress_task_is_joined (rt := example_rt) _ _ _ _ _ _ _ _ _ Hrun)
    as (w1 & cancelled & _ & _ & Htrace & Hdone).
  exists w'. split; [exact Hrun|]. split; [vm_compute; reflexivity|].
  exists w1. exact Htrace.
Defined.

(** ** Processing, processing, succeeded *)

Lemma trace_emit (e : event) (w : world) : trace (emit e w) = (trace w ++ [e])%list.
Proof. reflexivity. Qed.

Lemma trace_clock_read (E : env) (w : world) :
  trace (clock_read E w)
  = (trace w ++ [EvPerfCounter (clock w + drift E (n_clock w))%Q])%list.
Proof. reflexivity. Qed.

Lemma trace_set_up (E : env) (task_id version : string) (prt : Z)
    (overall : option Z) (w : world) :
  trace (set_up E task_id version prt overall w)
  = (trace w ++ [EvLog (LogWait task_id version prt overall);
                 EvPerfCounter (clock w + drift E (n_clock w))%Q;
                 EvCreateTask])%list.
Proof. unfold set_up. simpl. rewrite <- !app_assoc. reflexivity. Qed.

Lemma trace_cleaned_up (w : world) :
  trace (cleaned_up w) = (trace w ++ [EvCancelTask; EvAwaitTask; EvPrint])%list.
Proof. unfold cleaned_up. simpl. rewrite <- !app_assoc. reflexivity. Qed.

Lemma n_http_set_up (E : env) (task_id version : string) (prt : Z)
    (overall : option Z) (w : world) :
  n_http (set_up E task_id version prt overall w) = n_http w.
Proof. reflexivity. Qed.

Lemma n_http_emit (e : event) (w : world) : n_http (emit e w) = n_http w.
Proof. reflexivity. Qed.

Ltac traces :=
  rewrite ?trace_cleaned_up, ?trace_emit, ?trace_clock_read, ?trace_polled,
    ?trace_checked, ?trace_emit, ?trace_polled, ?trace_checked, ?trace_emit,
    ?trace_polled, ?trace_checked, ?trace_set_up;
  cbv iota; rewrite <- ?app_assoc; simpl.

(** C1. The first three wait requests of a call are answered by
    successful replies that report the version's task as "processing",
    "processing" and "succeeded". Then the call ends (three rounds of the
    loop are enough). When it has made its three requests, it returns
    the state of the third reply, these three requests are all it has
    made, and it has not slept at all. It makes fewer only when the
    overall deadline passes before the third request; then it fails with
    [TimeoutError]. *)
Theorem processing_processing_succeeded {rt : Runtime} (E : env)
    (extra : nat) (task_id version : string) (prt : Z) (overall : option Z)
    (w : world)
    (took1 took2 took3 : Q) (a1 a2 a3 : urlopen_result)
    (resp1 resp2 resp3 : gmap string json) (s1 s2 s3 : json) :
  urlopen E (n_http w) (wait_request task_id prt) = (took1, a1) →
  json_of_answer a1 = Ok (200%Z, JObj resp1) →
  success_envelope resp1 s1 →
  reports version s1 "processing" →
  urlopen E (S (n_http w)) (wait_request task_id prt) = (took2, a2) →
  json_of_answer a2 = Ok (200%Z, JObj resp2) →
  success_envelope resp2 s2 →
  reports version s2 "processing" →
  urlopen E (S (S (n_http w))) (wait_request task_id prt) = (took3, a3) →
  json_of_answer a3 = Ok (200%Z, JObj resp3) →
  success_envelope resp3 s3 →
  reports version s3 "succeeded" →
  ∃ r w' evs,
    wait_until_version_final E (3 + extra) task_id version prt overall w
    = Some (r, w')
    ∧ trace w' = (trace w ++ evs)%list
    ∧ (length (http_requests evs) = 3%nat →
       r = Ok s3
       ∧ http_requests evs
         = [wait_request task_id prt; wait_request task_id prt;
            wait_request task_id prt]
       ∧ sleeps evs = [])
    ∧ (length (http_requests evs) ≠ 3%nat →
       overall ≠ None ∧ r = Raise (TimeoutError (timeout_message overall)))
    ∧ (overall = None → length (http_requests evs) = 3%nat).
Proof.
  intros Ha1 Hj1 He1 Hs1 Ha2 Hj2 He2 Hs2 Ha3 Hj3 He3 Hs3.
  rewrite wait_until_version_final_eq. cbv zeta.
  set (started_at := (clock w + drift E (n_clock w))%Q).
  set (deadline := (λ t : Z, (started_at + inject_Z t)%Q) <$> overall).
  set (w0 := set_up E task_id version prt overall w).
  assert (Hnone : overall = None → ∀ x, late E deadline x = false).
  { intros -> x. reflexivity. }
  assert (Hsome : ∀ x, late E deadline x = true → overall ≠ None).
  { intros x Hx ->. discriminate. }
  change (3 + extra)%nat with (S (S (S extra))).
  destruct (late E deadline w0) eqn:Hl1.
  { rewrite (wait_loop_late E _ _ _ _ _ _ _ _ _ Hl1).
    do 3 eexists. split; [reflexivity|]. split; [|split; [|split]].
    - subst w0. traces. reflexivity.
    - destruct deadline; simpl; discriminate.
    - intros _. split; [eauto | reflexivity].
    - intros Ho. rewrite (Hnone Ho) in Hl1. discriminate. }
  rewrite (wait_loop_processing E _ _ _ _ _ _ _ _ _ _ _ _ _ Hl1 Ha1 Hj1 He1 Hs1).
  set (w1 := emit _ (polled _ took1 (checked E deadline w0))).
  assert (Hn1 : n_http w1 = S (n_http w)).
  { subst w1. rewrite n_http_emit, n_http_polled, n_http_checked. reflexivity. }
  rewrite <- Hn1 in Ha2.
  destruct (late E deadline w1) eqn:Hl2.
  { rewrite (wait_loop_late E _ _ _ _ _ _ _ _ _ Hl2).
    do 3 eexists. split; [reflexivity|]. split; [|split; [|split]].
    - subst w1 w0. traces. reflexivity.
    - destruct deadline; simpl; discriminate.
    - intros _. split; [eauto | reflexivity].
    - intros Ho. rewrite (Hnone Ho) in Hl2. discriminate. }
  rewrite (wait_loop_processing E _ _ _ _ _ _ _ _ _ _ _ _ _ Hl2 Ha2 Hj2 He2 Hs2).
  set (w2 := emit _ (polled _ took2 (checked E deadline w1))).
  assert (Hn2 : n_http w2 = S (S (n_http w))).
  { subst w2. rewrite n_http_emit, n_http_polled, n_http_checked, Hn1.
    reflexivity. }
  rewrite <- Hn2 in Ha3.
  destruct (late E deadline w2) eqn:Hl3.
  { rewrite (wait_loop_late E _ _ _ _ _ _ _ _ _ Hl3).
    do 3 eexists. split; [reflexivity|]. split; [|split; [|split]].
    - subst w2 w1 w0. traces. reflexivity.
    - destruct deadline; simpl; discriminate.
    - intros _. split; [eauto | reflexivity].
    - intros Ho. rewrite (Hnone Ho) in Hl3. discriminate. }
  rewrite (wait_loop_succeeded E _ _ _ _ _ _ _ _ _ _ _ _ _ Hl3 Ha3 Hj3 He3 Hs3).
  cbv zeta.
  do 3 eexists. split; [reflexivity|]. split; [|split; [|split]].
  - subst w2 w1 w0. traces. reflexivity.
  - intros _. destruct deadline; simpl; auto.
  - intros Hne. destruct deadline; simpl in Hne; congruence.
  - intros _. destruct deadline; reflexivity.
Qed.

Lemma reports_example (status : string) :
  reports "17" (state_with (task_with status)) status.
Proof.
  exists (task_with status). split.
  - exists {[ "tasks" := JList [JObj (task_with status)] ]}, [], [].
    split; [reflexivity|]. split; [vm_compute; reflexivity|].
    split; [constructor | vm_compute; reflexivity].
  - vm_compute; reflexivity.
Qed.

Lemma success_envelope_example (state : json) :
  success_envelope (<["success" := JBool true]> (<["data" := state]> ∅)) state.
Proof. split; vm_compute; reflexivity. Qed.

Lemma processing_processing_succeeded_witness :
  ∃ w' evs,
    wait_until_version_final (rt := example_rt) pps 3 "obj1" "17" 30
      (Some 600%Z) world0
    = Some (Ok (state_with (task_with "succeeded")), w')
    ∧ trace w' = evs
    ∧ http_requests evs
      = [wait_request "obj1" 30; wait_request "obj1" 30; wait_request "obj1" 30]
    ∧ sleeps evs = [].
Proof.
  destruct (processing_processing_succeeded (rt := example_rt) pps 0
              "obj1" "17" 30 (Some 600%Z) world0 1 1 1
              (ok_200 "processing") (ok_200 "processing") (ok_200 "succeeded")
              (<["success" := JBool true]>
                 (<["data" := state_with (task_with "processing")]> ∅))
              (<["success" := JBool true]>
                 (<["data" := state_with (task_with "processing")]> ∅))
              (<["success" := JBool true]>
                 (<["data" := state_with (task_with "succeeded")]> ∅))
              (state_with (task_with "processing"))
              (state_with (task_with "processing"))
              (state_with (task_with "succeeded")))
    as (r & w' & evs & Hrun & Htrace & Hthree & _ & _);
    try (vm_compute; reflexivity);
    try apply success_envelope_example; try apply reports_example.
  assert (Hlen : length (http_requests evs) = 3%nat).
  { change (trace world0 ++ evs)%list with evs in Htrace. rewrite <- Htrace.
    vm_compute in Hrun. injection Hrun as _ <-. reflexivity. }
  destruct (Hthree Hlen) as (-> & Hreq & Hsleep).
  exists w', evs. repeat split; assumption.
Defined.

(** ** A task that never shows up *)

Lemma wait_loop_more_fuel {rt : Runtime} (E : env) (fuel extra : nat)
    (task_id version : string) (prt : Z) (overall : option Z)
    (started_at : Q) (deadline : option Q) (attempt : Z) (w : world)
    (x : result json * world) :
  wait_loop E fuel task_id version prt overall started_at deadline attempt w
  = Some x →
  wait_loop E (fuel + extra) task_id version prt overall started_at deadline
    attempt w = Some x.
Proof.
  revert attempt w. induction fuel as [|fuel IH]; intros attempt w.
  - discriminate.
  - simpl. unfold bind.
    destruct (wait_iteration E task_id version prt overall started_at deadline
                (attempt + 1) w) as [[[[|state]|e] w1]|]; auto.
Qed.

Lemma wait_until_version_final_more_fuel {rt : Runtime} (E : env)
    (fuel extra : nat) (task_id version : string) (prt : Z)
    (overall : option Z) (w : world) (x : result json * world) :
  wait_until_version_final E fuel task_id version prt overall w = Some x →
  wait_until_version_final E (fuel + extra) task_id version prt overall w
  = Some x.
Proof.
  rewrite !wait_until_version_final_eq. cbv zeta.
  match goal with |- context [wait_loop E fuel ?a ?b ?c ?d ?e ?f ?g ?h] =>
    destruct (wait_loop E fuel a b c d e f g h) as [y|] eqn:Hloop end;
    [|discriminate].
  rewrite (wait_loop_more_fuel E _ extra _ _ _ _ _ _ _ _ _ Hloop). auto.
Qed.

Lemma tenths_above (q : Q) : ∃ n : nat, (q < inject_Z (Z.of_nat n) * (1 # 10))%Q.
Proof.
  exists (Z.to_nat (Z.max 0 (Qfloor (q * 10) + 1))).
  rewrite Z2Nat.id by lia.
  pose proof (Qlt_floor (q * 10)) as Hfloor.
  assert (Hmax : (inject_Z (Qfloor (q * 10) + 1)
                  <= inject_Z (Z.max 0 (Qfloor (q * 10) + 1)))%Q).
  { rewrite <- Zle_Qle. lia. }
  lra.
Qed.

Lemma late_true_clock (E : env) (d : Q) (w : world) :
  late E (Some d) w = true → (d < clock (checked E (Some d) w))%Q.
Proof.
  simpl. intros H. apply negb_true_iff in H.
  apply Qnot_le_lt. intros Hle. apply Qle_bool_iff in Hle. congruence.
Qed.

Lemma late_false_clock (E : env) (d : Q) (w : world) :
  late E (Some d) w = false → (clock (checked E (Some d) w) <= d)%Q.
Proof.
  simpl. intros H. apply negb_false_iff in H. apply Qle_bool_iff. exact H.
Qed.

Lemma absent_loop_times_out {rt : Runtime} (E : env)
    (task_id version : string) (prt : Z) (overall : option Z)
    (started_at d : Q) :
  always_absent E (wait_request task_id prt) version →
  sleeps_through E →
  clock_goes_on E →
  ∀ (n : nat) (attempt : Z) (w : world),
    (d - clock w < inject_Z (Z.of_nat n) * (1 # 10))%Q →
    ∃ w',
      (∀ extra,
         wait_loop E (S n + extra) task_id version prt overall started_at
           (Some d) attempt w
         = Some (Raise (TimeoutError (timeout_message overall)), w'))
      ∧ (d < clock w')%Q.
Proof.
  intros Habsent Hsleep Hdrift.
  induction n as [|n IH]; intros attempt w Hn.
  - destruct (late E (Some d) w) eqn:Hlate.
    + exists (checked E (Some d) w). split.
      * intros extra. apply (wait_loop_late E _ _ _ _ _ _ _ _ _ Hlate).
      * apply late_true_clock. exact Hlate.
    + apply late_false_clock in Hlate. simpl in Hlate, Hn.
      change (inject_Z (Z.of_nat 0)) with 0%Q in Hn.
      pose proof (Hdrift (n_clock w)). exfalso. lra.
  - destruct (late E (Some d) w) eqn:Hlate.
    + exists (checked E (Some d) w). split.
      * intros extra. apply (wait_loop_late E _ _ _ _ _ _ _ _ _ Hlate).
      * apply late_true_clock. exact Hlate.
    + destruct (Habsent (n_http w)) as (took & a & resp & state & Ha & Htook
                                         & Hj & Henv & Habs).
      destruct (Hsleep (n_sleep w) (1 # 10)%Q) as (nap & Hnap & Hlong).
      pose proof (get_version_status_absent _ _ Habs) as Hst.
      set (w1 := slept (1 # 10) nap
                   (emit (EvLog (LogNotFoundYet (attempt + 1)))
                      (polled (wait_request task_id prt) took
                         (checked E (Some d) w)))).
      destruct (IH (attempt + 1)%Z w1) as (w' & Hrun & Hclock).
      { subst w1. rewrite clock_slept. simpl emit.
        change (clock (emit ?e ?x)) with (clock x).
        rewrite clock_polled. simpl.
        pose proof (Hdrift (n_clock w)).
        assert (Hsucc : (inject_Z (Z.of_nat (S n))
                         == inject_Z (Z.of_nat n) + 1)%Q).
        { rewrite Nat2Z.inj_succ. unfold Z.succ. rewrite inject_Z_plus.
          reflexivity. }
        rewrite Hsucc in Hn. lra. }
      exists w'. split; [|exact Hclock].
      intros extra. change (S (S n) + extra)%nat with (S (S n + extra)).
      rewrite (wait_loop_not_visible E _ _ _ _ _ _ _ _ _ _ _ _ _ _
                 Hlate Ha Hj Henv Hst Hnap).
      apply Hrun.
Qed.

(** C2. With an overall timeout of [T] seconds, in a world where every
    wait request is answered by a successful reply without a task of the
    version, where sleeps are not interrupted and last at least as long
    as asked, and where time does not run backwards: the call ends, with
    enough fuel always the same way, by [TimeoutError], at a moment when
    more than [T] seconds have passed since it read the clock at its
    start; and with no amount of fuel does it end any other way, so it
    never returns a state. *)
Theorem absent_forever_times_out {rt : Runtime} (E : env)
    (task_id version : string) (prt : Z) (T : Z) (w : world) :
  always_absent E (wait_request task_id prt) version →
  sleeps_through E →
  clock_goes_on E →
  ∃ fuel w',
    (∀ extra,
       wait_until_version_final E (fuel + extra) task_id version prt (Some T) w
       = Some (Raise (TimeoutError (timeout_message (Some T))), w'))
    ∧ (inject_Z T < clock w' - (clock w + drift E (n_clock w)))%Q
    ∧ (∀ fuel' r w'',
         wait_until_version_final E fuel' task_id version prt (Some T) w
         = Some (r, w'') →
         r = Raise (TimeoutError (timeout_message (Some T))) ∧ w'' = w').
Proof.
  intros Habsent Hsleep Hdrift.
  set (started_at := (clock w + drift E (n_clock w))%Q).
  set (d := (started_at + inject_Z T)%Q).
  set (w0 := set_up E task_id version prt (Some T) w).
  destruct (tenths_above (d - clock w0)) as [n Hn].
  destruct (absent_loop_times_out E task_id version prt (Some T) started_at d
              Habsent Hsleep Hdrift n 0%Z w0 Hn) as (w1 & Hrun & Hclock).
  assert (Hfinal : ∀ extra,
            wait_until_version_final E (S n + extra) task_id version prt (Some T) w
            = Some (Raise (TimeoutError (timeout_message (Some T))),
                    cleaned_up w1)).
  { intros extra. rewrite wait_until_version_final_eq. cbv zeta.
    fold started_at. simpl fmap. fold d. fold w0. rewrite Hrun. reflexivity. }
  exists (S n), (cleaned_up w1). split; [exact Hfinal|]. split.
  - change (clock (cleaned_up w1)) with (clock w1). fold started_at.
    subst d. lra.
  - intros fuel' r w'' Hrun'.
    apply (wait_until_version_final_more_fuel E _ (S n)) in Hrun'.
    replace (fuel' + S n)%nat with (S n + fuel')%nat in Hrun' by lia.
    rewrite Hfinal in Hrun'. injection Hrun' as <- <-. auto.
Qed.

Lemma absent_forever_times_out_witness :
  ∃ fuel w',
    (∀ extra,
       wait_until_version_final (rt := example_rt) (repeating (ok_200 "no-task"))
         (fuel + extra) "obj1" "17" 30 (Some 1%Z) world0
       = Some (Raise (TimeoutError "Overall timeout reached (1s)"), w'))
    ∧ (inject_Z 1 < clock w' - (clock world0 + 0))%Q
    ∧ (∀ fuel' r w'',
         wait_until_version_final (rt := example_rt) (repeating (ok_200 "no-task"))
           fuel' "obj1" "17" 30 (Some 1%Z) world0
         = Some (r, w'') →
         r = Raise (TimeoutError "Overall timeout reached (1s)") ∧ w'' = w').
Proof.
  apply (absent_forever_times_out (rt := example_rt)
           (repeating (ok_200 "no-task")) "obj1" "17" 30 1 world0).
  - intros k.
    exists 1%Q, (ok_200 "no-task"),
      (<["success" := JBool true]>
         (<["data" := JObj {[ "tasks" := JList [] ]}]> ∅)),
      (JObj {[ "tasks" := JList [] ]}).
    split; [reflexivity|]. split; [discriminate|].
    split; [vm_compute; reflexivity|].
    split; [apply success_envelope_example|].
    exists {[ "tasks" := JList [] ]}, [].
    split; [reflexivity|]. split; [vm_compute; reflexivity | constructor].
  - intros k delay. exists delay. split; [reflexivity | apply Qle_refl].
  - intros k. discriminate.
Defined.

Example absent_forever_run :
  ∃ w',
    wait_until_version_final (rt := example_rt) (repeating (ok_200 "no-task"))
      2 "obj1" "17" 30 (Some 1%Z) world0
    = Some (Raise (TimeoutError "Overall timeout reached (1s)"), w')
    ∧ sleeps (trace w') = [(1 # 10)%Q]
    ∧ length (http_requests (trace w')) = 1%nat.
Proof. eexists. split; [vm_compute; reflexivity|]. split; reflexivity. Qed.

(** ** Creating the generation *)

Lemma create_generation_reply {rt : Runtime} (E : env)
    (object_name object_description model : string) (w : world) (took : Q)
    (a : urlopen_result) (status : Z) (resp : json) :
  urlopen E (n_http w)
    (create_request (pretty (time_ms E (n_time w)))
       object_name object_description model) = (took, a) →
  json_of_answer a = Ok (status, resp) →
  create_generation E object_name object_description model w
  = bind (lift (not_success status resp)) (λ bad : bool,
      if bad then
        bind (lift (py_get resp "error")) (λ e,
          raise (RuntimeError
                   (py_or e (JStr ("Failed to create generation: " ++ py_str resp)))))
      else
        bind (lift (py_subscript resp "data")) (λ data,
          bind (lift (py_subscript data "id")) (λ task_id,
            match task_id with
            | JStr task_id =>
                bind (log_info (LogCreated task_id)) (λ _,
                  ret {| id := task_id;
                         version := pretty (time_ms E (n_time w));
                         name := object_name;
                         description := object_description |})
            | _ => raise (TypeError (Some "id is not string"))
            end)))
      (create_sent E object_name object_description model took w).
Proof.
  intros Ha Hj. unfold create_generation, make_version.
  unfold bind at 1 2, time_time_ms, ret at 1.
  unfold bind at 1, log_info at 1. unfold bind at 1.
  unfold create_request in Ha.
  rewrite (http_json_eq E _ _ _ _ took a) by exact Ha.
  rewrite Hj. reflexivity.
Qed.

Lemma main_create_fails {rt : Runtime} (E : env) (fuel : nat)
    (object_name object_description model : string) (w : world)
    (e : exn) (w' : world) :
  create_generation E object_name object_description model w
  = Some (Raise e, w') →
  main E fuel object_name object_description model w = Some (Raise e, w').
Proof. intros H. unfold main, bind at 1. rewrite H. reflexivity. Qed.

Lemma create_generation_no_reply {rt : Runtime} (E : env)
    (object_name object_description model : string) (w : world) (took : Q)
    (a : urlopen_result) (e : exn) :
  urlopen E (n_http w)
    (create_request (pretty (time_ms E (n_time w)))
       object_name object_description model) = (took, a) →
  json_of_answer a = Raise e →
  create_generation E object_name object_description model w
  = Some (Raise e, create_sent E object_name object_description model took w).
Proof.
  intros Ha Hj. unfold create_generation, make_version.
  unfold bind at 1 2, time_time_ms, ret at 1.
  unfold bind at 1, log_info at 1. unfold bind at 1.
  unfold create_request in Ha.
  rewrite (http_json_eq E _ _ _ _ took a) by exact Ha.
  rewrite Hj. reflexivity.
Qed.

(** C4, as the code has it. The request of [create_generation] is the
    only one made, and by what [_sync_http_json] makes of its answer:
    - it raises (a transport error, or "Non-JSON response: ..." for a
      2xx body that is not JSON): [create_generation] fails with that
      exception;
    - it reads as [(status, resp)], [resp] not a dict: [resp.get] fails
      with [AttributeError], whatever the status;
    - [resp] a dict, and a status other than 200 or a false [success]:
      it fails with a [RuntimeError] (the specification's RequestError),
      its argument being the reply's error or "Failed to create
      generation: ...";
    - [resp] a dict, status 200 and a true [success]: without ["data"]
      it fails with [KeyError]; with a ["data"] that is not a dict, with
      the interpreter's [TypeError]; with a dict that has no ["id"],
      with [KeyError]; with an ["id"] that is not a string, with
      [TypeError] "id is not string"; none of them is a [RuntimeError].
      When the ["id"] is a string, it returns the metadata with that id,
      the version made from the clock, and the name and description
      given.
    In each failure [main] fails the same way in the same world: the
    only request made is the one of [create_generation], no wait
    request. *)
Theorem create_generation_outcomes {rt : Runtime} (E : env) (fuel : nat)
    (object_name object_description model : string) (w : world) (took : Q)
    (a : urlopen_result) :
  urlopen E (n_http w)
    (create_request (pretty (time_ms E (n_time w)))
       object_name object_description model) = (took, a) →
  let version := pretty (time_ms E (n_time w)) in
  let w' := create_sent E object_name object_description model took w in
  let fails e :=
    create_generation E object_name object_description model w
    = Some (Raise e, w')
    ∧ main E fuel object_name object_description model w = Some (Raise e, w') in
  http_requests (trace w')
  = (http_requests (trace w)
     ++ [create_request version object_name object_description model])%list
  ∧ (∀ e, json_of_answer a = Raise e → fails e)
  ∧ (∀ status resp, json_of_answer a = Ok (status, resp) →
       ((∀ m, resp ≠ JObj m) → fails AttributeError)
       ∧ (∀ m : gmap string json, resp = JObj m →
            (status ≠ 200%Z ∨ truthy (default JNull (m !! "success")) = false →
             fails (RuntimeError
                      (py_or (default JNull (m !! "error"))
                         (JStr ("Failed to create generation: " ++ py_str resp)))))
            ∧ (status = 200%Z → truthy (default JNull (m !! "success")) = true →
                 (m !! "data" = None → fails (KeyError "data"))
                 ∧ (∀ d, m !! "data" = Some d → (∀ data, d ≠ JObj data) →
                      fails (TypeError None))
                 ∧ (∀ data : gmap string json, m !! "data" = Some (JObj data) →
                      (data !! "id" = None → fails (KeyError "id"))
                      ∧ (∀ v, data !! "id" = Some v → (∀ s, v ≠ JStr s) →
                           fails (TypeError (Some "id is not string")))
                      ∧ (∀ s, data !! "id" = Some (JStr s) →
                           create_generation E object_name object_description model w
                           = Some (Ok {| id := s; version := version;
                                         name := object_name;
                                         description := object_description |},
                                   emit (EvLog (LogCreated s)) w')))))).
Proof.
  intros Ha version w' fails.
  assert (Hfails : ∀ e,
    create_generation E object_name object_description model w
    = Some (Raise e, w') → fails e).
  { intros e Hfail.
    split; [exact Hfail | exact (main_create_fails E _ _ _ _ _ _ _ Hfail)]. }
  split; [|split].
  - subst w'. unfold create_sent. rewrite trace_polled, !trace_emit.
    rewrite !http_requests_app. simpl. rewrite !app_nil_r. reflexivity.
  - intros e Hj. apply Hfails.
    exact (create_generation_no_reply E _ _ _ _ _ _ _ Ha Hj).
  - intros status resp Hj.
    pose proof (create_generation_reply E _ _ _ _ _ _ _ _ Ha Hj) as Hcreate.
    fold w' in Hcreate.
    split.
    + intros Hresp. apply Hfails. rewrite Hcreate.
      pose proof (py_get_not_a_dict resp "error" Hresp) as Herror.
      pose proof (py_get_not_a_dict resp "success" Hresp) as Hsuccess.
      unfold bind at 1, lift at 1, not_success.
      destruct (status =? 200)%Z; simpl negb; cbv iota.
      * rewrite Hsuccess. reflexivity.
      * unfold bind at 1, lift at 1. rewrite Herror. reflexivity.
    + intros m ->. split.
      * intros Hbad. apply Hfails.
        assert (Hns : not_success status (JObj m) = Ok true).
        { unfold not_success. destruct Hbad as [Hstatus | Hsuccess].
          - apply Z.eqb_neq in Hstatus. rewrite Hstatus. reflexivity.
          - destruct (status =? 200)%Z; simpl; [rewrite Hsuccess|]; reflexivity. }
        rewrite Hcreate. unfold bind at 1, lift at 1. rewrite Hns. reflexivity.
      * intros -> Hsuccess.
        assert (Hns : not_success 200 (JObj m) = Ok false).
        { unfold not_success. simpl. rewrite Hsuccess. reflexivity. }
        assert (Hdata : create_generation E object_name object_description model w
                        = bind (lift (py_subscript (JObj m) "data")) (λ data,
                            bind (lift (py_subscript data "id")) (λ task_id,
                              match task_id with
                              | JStr task_id =>
                                  bind (log_info (LogCreated task_id)) (λ _,
                                    ret {| id := task_id; version := version;
                                           name := object_name;
                                           description := object_description |})
                              | _ => raise (TypeError (Some "id is not string"))
                              end)) w').
        { rewrite Hcreate. unfold bind at 1, lift at 1. rewrite Hns. reflexivity. }
        split; [|split].
        -- intros Hnone. apply Hfails. rewrite Hdata.
           unfold bind at 1, lift at 1. simpl py_subscript. rewrite Hnone.
           reflexivity.
        -- intros d Hd Hnot. apply Hfails. rewrite Hdata.
           unfold bind at 1, lift at 1. simpl py_subscript. rewrite Hd.
           unfold bind at 1, lift at 1.
           destruct d; try reflexivity. destruct (Hnot m0 eq_refl).
        -- intros data Hd.
           assert (Hgo : create_generation E object_name object_description model w
                         = bind (lift (py_subscript (JObj data) "id")) (λ task_id,
                             match task_id with
                             | JStr task_id =>
                                 bind (log_info (LogCreated task_id)) (λ _,
                                   ret {| id := task_id; version := version;
                                          name := object_name;
                                          description := object_description |})
                             | _ => raise (TypeError (Some "id is not string"))
                             end) w').
           { rewrite Hdata. unfold bind at 1, lift at 1. simpl py_subscript.
             rewrite Hd. reflexivity. }
           split; [|split].
           ++ intros Hid. apply Hfails. rewrite Hgo. unfold bind, lift. simpl.
              rewrite Hid. reflexivity.
           ++ intros v Hid Hv. apply Hfails. rewrite Hgo. unfold bind, lift.
              simpl. rewrite Hid.
              destruct v; try reflexivity. destruct (Hv s eq_refl).
           ++ intros s Hid. rewrite Hgo. unfold bind, lift. simpl. rewrite Hid.
              reflexivity.
Qed.

Lemma create_generation_outcomes_witness :
  ∃ w',
    create_generation (rt := example_rt) (scripted [ok_200 "created"])
      "jet" "a jet" "gemini-3-flash-preview" world0
    = Some (Ok {| id := "obj1"; version := "17"; name := "jet";
                  description := "a jet" |}, w').
Proof.
  destruct (create_generation_outcomes (rt := example_rt)
              (scripted [ok_200 "created"]) 0
              "jet" "a jet" "gemini-3-flash-preview" world0 1
              (ok_200 "created"))
    as (_ & _ & Hreply); [vm_compute; reflexivity|].
  assert (Hj : json_of_answer (rt := example_rt) (ok_200 "created")
               = Ok (200%Z, JObj (<["success" := JBool true]>
                                   (<["data" := JObj {[ "id" := JStr "obj1" ]}]> ∅)))).
  { vm_compute; reflexivity. }
  destruct (Hreply _ _ Hj) as (_ & Hdict).
  destruct (Hdict _ eq_refl) as (_ & Hok).
  destruct (Hok eq_refl) as (_ & _ & Hdata); [vm_compute; reflexivity|].
  destruct (Hdata ({[ "id" := JStr "obj1" ]} : gmap string json))
    as (_ & _ & Hid); [vm_compute; reflexivity|].
  eexists. apply (Hid "obj1"). vm_compute; reflexivity.
Defined.

(** C4, as stated, fails for an id that is not a string, and for a
    missing one: the creation is answered with status 200 and a true
    [success], and [create_generation] fails with [TypeError], or with
    [KeyError], which are not [RuntimeError]. *)
Lemma create_id_not_string_counterexample :
  json_of_answer (rt := example_rt) (ok_200 "created-int-id")
  = Ok (200%Z, success_with (JObj {[ "id" := JInt 7 ]}))
  ∧ (∃ w',
       create_generation (rt := example_rt) (scripted [ok_200 "created-int-id"])
         "jet" "a jet" "gemini-3-flash-preview" world0
       = Some (Raise (TypeError (Some "id is not string")), w'))
  ∧ json_of_answer (rt := example_rt) (ok_200 "created-no-id")
    = Ok (200%Z, success_with (JObj ∅))
  ∧ (∃ w',
       create_generation (rt := example_rt) (scripted [ok_200 "created-no-id"])
         "jet" "a jet" "gemini-3-flash-preview" world0
       = Some (Raise (KeyError "id"), w'))
  ∧ (∀ arg, TypeError (Some "id is not string") ≠ RuntimeError arg)
  ∧ (∀ arg, KeyError "id" ≠ RuntimeError arg).
Proof.
  split; [vm_compute; reflexivity|].
  split; [eexists; vm_compute; reflexivity|].
  split; [vm_compute; reflexivity|].
  split; [eexists; vm_compute; reflexivity|].
  split; discriminate.
Qed.

(** ** Bodies that are not JSON *)

Lemma not_success_failure_envelope {rt : Runtime} (code : Z) (body : bytes) :
  not_success code (failure_envelope body) = Ok true.
Proof.
  unfold not_success. destruct (code =? 200)%Z; [|reflexivity].
  unfold failure_envelope, py_get. simpl negb. cbv iota.
  rewrite lookup_insert_eq. reflexivity.
Qed.

(** C7, as the code has it, for a body that is not JSON.
    - With a response (a 2xx status), [http_json] fails with the
      [RuntimeError] "Non-JSON response: ..." of [_read_json_bytes] (the
      specification's DecodeError).
    - With an error status, [http_json] does not fail: it returns the
      status and an envelope with a false [success] and the text of the
      body as [error]. Each of its three callers then fails with the
      [RuntimeError] of a refused request, whose argument is the text of
      the body, or the caller's own text when the body is empty.
    - The DecodeError is no error kind of its own: it is a
      [RuntimeError] as a refused request raises it, and the wait for a
      request that the server refuses (with a status other than 200 and
      404) with that same text as its error ends with the very same
      exception. *)
Theorem non_json_body {rt : Runtime} (E : env) (body : bytes) :
  (∀ j, parse_json body ≠ Ok j) →
  let decode_error :=
    RuntimeError (JStr ("Non-JSON response: " ++ py_repr (take 200 body))) in
  let text := JStr (utf8_decode_replace body) in
  let envelope := failure_envelope body in
  (∀ (m u : string) (p : option json) (w : world) (took : Q) (status : Z)
     (content_type : option string),
     urlopen E (n_http w) {| method := m; url := u; payload := p |}
     = (took, Response status body content_type) →
     ∃ w', http_json E m u p w = Some (Raise decode_error, w'))
  ∧ (∀ (m u : string) (p : option json) (w : world) (took : Q) (code : Z),
       urlopen E (n_http w) {| method := m; url := u; payload := p |}
       = (took, ErrorResponse code body) →
       ∃ w', http_json E m u p w = Some (Ok (code, envelope), w'))
  ∧ (∀ (object_name object_description model : string) (w : world) (took : Q)
       (code : Z),
       urlopen E (n_http w)
         (create_request (pretty (time_ms E (n_time w)))
            object_name object_description model)
       = (took, ErrorResponse code body) →
       ∃ w',
         create_generation E object_name object_description model w
         = Some (Raise (RuntimeError
                          (py_or text
                             (JStr ("Failed to create generation: "
                                    ++ py_str envelope)))), w'))
  ∧ (∀ (fuel : nat) (task_id version : string) (prt : Z) (overall : option Z)
       (started_at : Q) (deadline : option Q) (attempt : Z) (w : world)
       (took : Q) (code : Z),
       late E deadline w = false →
       urlopen E (n_http w) (wait_request task_id prt)
       = (took, ErrorResponse code body) →
       ∃ w',
         wait_loop E (S fuel) task_id version prt overall started_at deadline
           attempt w
         = Some (Raise (RuntimeError
                          (py_or text
                             (JStr (if (code =? 404)%Z then "Object not found"
                                    else "Wait failed: " ++ py_str envelope)))),
                 w'))
  ∧ (∀ (payload : json) (w : world) (took : Q) (code : Z),
       urlopen E (n_http w) (debug_request payload)
       = (took, ErrorResponse code body) →
       ∃ w',
         debug_add_object_to_rooms E payload w
         = Some (Raise (RuntimeError
                          (py_or text
                             (JStr ("debug add failed: " ++ py_str envelope)))),
                 w'))
  ∧ (∀ (fuel : nat) (task_id version : string) (prt : Z) (overall : option Z)
       (started_at : Q) (deadline : option Q) (attempt : Z) (w : world)
       (took : Q) (a : urlopen_result) (status : Z) (resp : gmap string json),
       late E deadline w = false →
       urlopen E (n_http w) (wait_request task_id prt) = (took, a) →
       json_of_answer a = Ok (status, JObj resp) →
       status ≠ 404%Z → status ≠ 200%Z →
       resp !! "error"
       = Some (JStr ("Non-JSON response: " ++ py_repr (take 200 body))) →
       ∃ w',
         wait_loop E (S fuel) task_id version prt overall started_at deadline
           attempt w = Some (Raise decode_error, w')).
Proof.
  intros Hbody decode_error text envelope.
  assert (Hparse : parse_json body = Raise ValueError).
  { destruct (parse_json_cases body) as [[j Hj] | H]; [|exact H].
    destruct (Hbody j Hj). }
  assert (Hj : ∀ code,
    json_of_answer (ErrorResponse code body) = Ok (code, failure_envelope body)).
  { intros code. exact (error_answer_reads_text code body Hparse). }
  split; [|split; [|split; [|split; [|split]]]].
  - intros m u p w took status content_type Ha.
    rewrite (http_json_eq E _ _ _ _ _ _ Ha). eexists.
    unfold json_of_answer, _read_json_bytes. rewrite Hparse. reflexivity.
  - intros m u p w took code Ha.
    rewrite (http_json_eq E _ _ _ _ _ _ Ha), Hj. eexists. reflexivity.
  - intros object_name object_description model w took code Ha.
    exists (create_sent E object_name object_description model took w).
    rewrite (create_generation_reply E _ _ _ _ _ _ _ _ Ha (Hj code)).
    unfold bind at 1, lift at 1. rewrite not_success_failure_envelope.
    unfold bind at 1, lift at 1. rewrite failure_envelope_error. reflexivity.
  - intros fuel task_id version prt overall started_at deadline attempt w took
      code Hlate Ha.
    exists (polled (wait_request task_id prt) took (checked E deadline w)).
    simpl wait_loop. unfold bind at 1.
    rewrite (wait_iteration_reply E _ _ _ _ _ _ _ _ _ _ _ _ Hlate Ha (Hj code)).
    cbv zeta. destruct (code =? 404)%Z.
    + unfold bind at 1, lift at 1. rewrite failure_envelope_error. reflexivity.
    + unfold bind at 1, lift at 1. rewrite not_success_failure_envelope.
      unfold bind at 1, lift at 1. rewrite failure_envelope_error. reflexivity.
  - intros payload w took code Ha.
    exists (polled (debug_request payload) took (emit (EvLog LogDebugAdd) w)).
    unfold debug_add_object_to_rooms. unfold bind at 1, log_info at 1.
    unfold bind at 1. unfold debug_request in Ha.
    rewrite (http_json_eq E _ _ _ _ took _) by exact Ha.
    rewrite Hj.
    unfold bind at 1, lift at 1. rewrite not_success_failure_envelope.
    unfold bind at 1, lift at 1. rewrite failure_envelope_error. reflexivity.
  - intros fuel task_id version prt overall started_at deadline attempt w
      took a status resp Hlate Ha Hja H404 H200 Herror.
    eexists. simpl. unfold bind at 1.
    rewrite (wait_iteration_reply E _ _ _ _ _ _ _ _ _ _ _ _ Hlate Ha Hja).
    cbv zeta. apply Z.eqb_neq in H404. rewrite H404.
    unfold bind at 1, lift at 1, not_success.
    apply Z.eqb_neq in H200. rewrite H200. simpl negb. cbv iota.
    unfold bind at 1, lift at 1, py_get. rewrite Herror. reflexivity.
Qed.

Lemma non_json_body_witness :
  ∃ w',
    http_json (rt := example_rt) (scripted [Response 200 html None])
      "GET" (wait_url "obj1" 30) None world0
    = Some (Raise (RuntimeError
                     (JStr "Non-JSON response: b'<html>busy</html>'")), w').
Proof.
  destruct (non_json_body (rt := example_rt) (scripted [Response 200 html None])
              html) as [Hresp _].
  - intros j Hj. vm_compute in Hj. discriminate.
  - destruct (Hresp "GET" (wait_url "obj1" 30) None world0 1%Q 200%Z None)
      as [w' Hw']; [vm_compute; reflexivity|].
    exists w'. rewrite Hw'. reflexivity.
Defined.

(** C7, as stated, fails twice. For an error reply whose body is not
    JSON the request does not fail with "Non-JSON response", and the
    wait fails with the text of the body as it does for a refused
    request. And the "Non-JSON response" error is told from the error of
    a refused request by nothing: a 2xx reply that is not JSON, and a
    reply with status 500 whose error is the text "Non-JSON response:
    b'<html>busy</html>'", end the wait with the same exception. *)
Lemma non_json_error_reply_counterexample :
  parse_json (rt := example_rt) html = Raise ValueError
  ∧ (∃ w',
       http_json (rt := example_rt) (scripted [ErrorResponse 503 html])
         "GET" (wait_url "obj1" 30) None world0
       = Some (Ok (503%Z, failure_envelope (rt := example_rt) html), w'))
  ∧ (∃ w',
       wait_until_version_final (rt := example_rt)
         (scripted [ErrorResponse 503 html]) 1 "obj1" "17" 30 (Some 600%Z) world0
       = Some (Raise (RuntimeError (JStr "<html>busy</html>")), w'))
  ∧ RuntimeError (JStr "<html>busy</html>")
    ≠ RuntimeError (JStr ("Non-JSON response: "
                            ++ py_repr (Runtime := example_rt) (take 200 html)))
  ∧ (∃ e w1 w2,
       wait_until_version_final (rt := example_rt)
         (scripted [Response 200 html None]) 1 "obj1" "17" 30 (Some 600%Z) world0
       = Some (Raise e, w1)
       ∧ wait_until_version_final (rt := example_rt)
           (scripted [ErrorResponse 500 (list_byte_of_string "refused-as-non-json")])
           1 "obj1" "17" 30 (Some 600%Z) world0
         = Some (Raise e, w2)).
Proof.
  split; [vm_compute; reflexivity|].
  split; [eexists; vm_compute; reflexivity|].
  split; [eexists; vm_compute; reflexivity|].
  split; [vm_compute; discriminate|].
  exists (RuntimeError (JStr "Non-JSON response: b'<html>busy</html>'")).
  do 2 eexists. split; vm_compute; reflexivity.
Qed.

(** * More properties of the client *)

(** ** Looking up the task of a version *)

(** [get_version_task] returns the first task that carries the version,
    and looks no further: what follows it in the list (a second task of
    the same version, an entry that is no dict) plays no part. *)
Theorem get_version_task_first_match (version : string)
    (m : gmap string json) (pre : list (gmap string json))
    (t : gmap string json) (rest : list json) :
  m !! "tasks" = Some (JList ((JObj <$> pre) ++ JObj t :: rest)%list) →
  Forall (other_version version) pre →
  t !! "version" = Some (JStr version) →
  get_version_task (JObj m) version = Ok (Some (JObj t)).
Proof.
  intros Hm Hpre Ht. unfold get_version_task. simpl. rewrite Hm. simpl.
  replace (py_or (JList ((JObj <$> pre) ++ JObj t :: rest)%list) (JList []))
    with (JList ((JObj <$> pre) ++ JObj t :: rest)%list)
    by (destruct pre; reflexivity).
  simpl. rewrite (find_version_other _ _ _ Hpre).
  simpl. rewrite Ht. simpl. rewrite String.eqb_refl. reflexivity.
Qed.

Lemma get_version_task_first_match_witness :
  get_version_task
    (JObj {[ "tasks" := JList [JObj {[ "version" := JStr "16" ]};
                               JObj (task_with "failed");
                               JObj (task_with "succeeded"); JNull] ]}) "17"
  = Ok (Some (JObj (task_with "failed"))).
Proof.
  apply (get_version_task_first_match "17" _ [{[ "version" := JStr "16" ]}]
           (task_with "failed") [JObj (task_with "succeeded"); JNull]).
  - vm_compute; reflexivity.
  - constructor; [|constructor]. vm_compute. discriminate.
  - vm_compute; reflexivity.
Defined.

Lemma find_version_found (version : string) (ts : list json) (x : json) :
  find_version ts version = Ok (Some x) →
  ∃ (pre : list (gmap string json)) (t : gmap string json) (rest : list json),
    ts = ((JObj <$> pre) ++ JObj t :: rest)%list ∧ x = JObj t
    ∧ Forall (other_version version) pre
    ∧ t !! "version" = Some (JStr version).
Proof.
  induction ts as [|t0 ts IH]; [discriminate|].
  simpl. destruct t0 as [| | | | |l|m0]; try discriminate. simpl.
  destruct (eq_str (default JNull (m0 !! "version")) version) eqn:Heq.
  - intros [= <-]. exists [], m0, ts. split; [reflexivity|].
    split; [reflexivity|]. split; [constructor|].
    apply eq_str_true in Heq.
    destruct (m0 !! "version") as [v|]; simpl in Heq; [congruence | discriminate].
  - intros Hfind. destruct (IH Hfind) as (pre & t & rest & -> & -> & Hpre & Ht).
    exists (m0 :: pre), t, rest. split; [reflexivity|]. split; [reflexivity|].
    split; [|exact Ht]. constructor; [|exact Hpre].
    apply eq_str_false in Heq. intros Hv. apply Heq. rewrite Hv. reflexivity.
Qed.

Lemma chars_nil (s : string) : chars s = [] → s = "".
Proof. destruct s; [reflexivity | discriminate]. Qed.

(** When [get_version_task] returns a task, the state is a dict whose
    ["tasks"] is a list, the task is a dict of that list that carries
    the version, and every entry before it is a dict that does not. *)
Theorem get_version_task_sound (version : string) (state x : json) :
  get_version_task state version = Ok (Some x) →
  ∃ (m : gmap string json) (pre : list (gmap string json))
    (t : gmap string json) (rest : list json),
    state = JObj m
    ∧ m !! "tasks" = Some (JList ((JObj <$> pre) ++ JObj t :: rest)%list)
    ∧ x = JObj t
    ∧ Forall (other_version version) pre
    ∧ t !! "version" = Some (JStr version).
Proof.
  unfold get_version_task.
  destruct state as [| | | | |l|m]; try discriminate. simpl.
  destruct (m !! "tasks") as [tasks|] eqn:Hm; simpl; [|discriminate].
  unfold py_or. destruct (truthy tasks) eqn:Htruthy; [|discriminate].
  destruct tasks as [|b|n|f|s|l|m']; simpl; try discriminate.
  - destruct (chars s) as [|c cs] eqn:Hs.
    + apply chars_nil in Hs. subst s. discriminate.
    + destruct s; [discriminate|]. injection Hs as <- _. discriminate.
  - intros Hfind.
    destruct (find_version_found _ _ _ Hfind) as (pre & t & rest & -> & -> & Hpre & Ht).
    exists m, pre, t, rest. auto.
  - destruct (map_to_list m') as [|[k v] kvs] eqn:Hkeys.
    + apply map_to_list_empty_iff in Hkeys. subst m'. discriminate.
    + discriminate.
Qed.

Lemma get_version_task_sound_witness :
  ∃ (m : gmap string json) (pre : list (gmap string json))
    (t : gmap string json) (rest : list json),
    state_with (task_with "failed") = JObj m
    ∧ m !! "tasks" = Some (JList ((JObj <$> pre) ++ JObj t :: rest)%list)
    ∧ JObj (task_with "failed") = JObj t
    ∧ Forall (other_version "17") pre
    ∧ t !! "version" = Some (JStr "17").
Proof.
  apply (get_version_task_sound "17" (state_with (task_with "failed"))
           (JObj (task_with "failed"))).
  vm_compute; reflexivity.
Defined.

(** A state without ["tasks"], or with a false one ([None], an empty
    list, [0], [""], [False], an empty dict), has no task of any
    version: the lookup returns [None] and raises nothing, and the
    status is [None]. *)
Theorem no_tasks_no_task (version : string) (m : gmap string json) :
  truthy (default JNull (m !! "tasks")) = false →
  get_version_task (JObj m) version = Ok None
  ∧ get_version_status (JObj m) version = Ok None
  ∧ raise_if_failed (JObj m) version = Ok tt.
Proof.
  intros Hfalse.
  assert (Htask : get_version_task (JObj m) version = Ok None).
  { unfold get_version_task. simpl. unfold py_or. rewrite Hfalse. reflexivity. }
  unfold get_version_status, raise_if_failed. rewrite Htask. auto.
Qed.

Lemma no_tasks_no_task_witness :
  get_version_task (JObj {[ "tasks" := JNull ]}) "17" = Ok None
  ∧ get_version_status (JObj {[ "tasks" := JNull ]}) "17" = Ok None
  ∧ raise_if_failed (JObj {[ "tasks" := JNull ]}) "17" = Ok tt.
Proof.
  apply (no_tasks_no_task "17" {[ "tasks" := JNull ]}).
  vm_compute; reflexivity.
Defined.

(** [raise_if_failed] raises exactly when [get_version_status] says
    "failed", and then a [RuntimeError]: in the loop, the
    [raise RuntimeError("Generation failed")] that follows the call of
    [raise_if_failed] is never reached. For every other status it
    returns. *)
Theorem raise_if_failed_agrees (version : string) (state : json)
    (st : option TaskStatus) :
  get_version_status state version = Ok st →
  (st = Some failed → ∃ arg, raise_if_failed state version = Raise (RuntimeError arg))
  ∧ (st ≠ Some failed → raise_if_failed state version = Ok tt).
Proof.
  unfold get_version_status, raise_if_failed.
  destruct (get_version_task state version) as [[t|]|e]; simpl;
    [| intros [= <-]; split; [discriminate | reflexivity] | discriminate].
  destruct (truthy t); simpl;
    [| intros [= <-]; split; [discriminate | reflexivity]].
  destruct t as [| | | | |l|m]; try discriminate. simpl.
  destruct (eq_str (default JNull (m !! "status")) "processing") eqn:Hp.
  { apply eq_str_true in Hp. rewrite Hp. simpl. intros [= <-].
    split; [discriminate | reflexivity]. }
  destruct (eq_str (default JNull (m !! "status")) "succeeded") eqn:Hs.
  { apply eq_str_true in Hs. rewrite Hs. simpl. intros [= <-].
    split; [discriminate | reflexivity]. }
  destruct (eq_str (default JNull (m !! "status")) "failed") eqn:Hf.
  - intros [= <-]. split; [eauto | congruence].
  - intros [= <-]. split; [discriminate | reflexivity].
Qed.

Lemma raise_if_failed_agrees_witness :
  ∃ arg, raise_if_failed (state_with (task_with "failed")) "17"
         = Raise (RuntimeError arg).
Proof.
  destruct (raise_if_failed_agrees "17" (state_with (task_with "failed"))
              (Some failed)) as [Hfailed _].
  - vm_compute; reflexivity.
  - exact (Hfailed eq_refl).
Defined.

(** ** Reading a reply *)

(** [_sync_http_json] never raises for an error status: it returns the
    code, with the parsed body when the body is JSON (whatever JSON it
    is), and with the failure envelope around the text of the body when
    it is not. *)
Theorem json_of_error_answer {rt : Runtime} (code : Z) (body : bytes) :
  ∃ resp,
    json_of_answer (ErrorResponse code body) = Ok (code, resp)
    ∧ (parse_json body = Ok resp
       ∨ (parse_json body = Raise ValueError ∧ resp = failure_envelope body)).
Proof.
  unfold json_of_answer.
  destruct (parse_json_cases body) as [[j Hj] | Hraise].
  - exists j. rewrite Hj. auto.
  - exists (failure_envelope body). rewrite Hraise. auto.
Qed.

(** ** The version token *)

(** Two calls of [make_version] give the same version exactly when the
    clock shows the same millisecond: the decimal text of the
    millisecond tells the milliseconds apart, and nothing else enters
    the token. *)
Theorem make_version_same_millisecond (E : env) (w1 w2 : world)
    (v1 v2 : string) (w1' w2' : world) :
  make_version E w1 = Some (Ok v1, w1') →
  make_version E w2 = Some (Ok v2, w2') →
  (v1 = v2 ↔ time_ms E (n_time w1) = time_ms E (n_time w2)).
Proof.
  unfold make_version, bind, time_time_ms, ret. intros [= <- _] [= <- _].
  split; [apply pretty_Z_inj | congruence].
Qed.

Lemma make_version_same_millisecond_witness :
  "17" = "17" ↔ time_ms (scripted []) (n_time world0)
                = time_ms (scripted []) (n_time (count_time world0)).
Proof.
  apply (make_version_same_millisecond (scripted []) world0 (count_time world0)
           "17" "17"
           (emit (EvTime 17) (count_time world0))
           (emit (EvTime 17) (count_time (count_time world0))));
    reflexivity.
Defined.

(** ** More on the loop *)

Lemma wait_iteration_raises {rt : Runtime} (E : env)
    (task_id version : string) (prt : Z) (overall : option Z)
    (started_at : Q) (deadline : option Q) (attempt : Z) (w : world)
    (took : Q) (a : urlopen_result) (e : exn) :
  late E deadline w = false →
  urlopen E (n_http w) (wait_request task_id prt) = (took, a) →
  json_of_answer a = Raise e →
  wait_iteration E task_id version prt overall started_at deadline attempt w
  = Some (Raise e, polled (wait_request task_id prt) took (checked E deadline w)).
Proof.
  intros Hlate Ha Hj. unfold wait_iteration.
  unfold bind at 1. rewrite deadline_reached_eq, Hlate.
  unfold bind at 1. rewrite <- (n_http_checked E deadline) in Ha.
  unfold wait_request in Ha. rewrite (http_json_eq _ _ _ _ _ _ _ Ha), Hj.
  reflexivity.
Qed.

(** A reply that is no 404 and no success ends the loop at once: its
    request is the last one and nothing sleeps.
    - When the reply reads as a dict, with a status other than 200 or a
      false [success], the loop ends with the [RuntimeError] of line
      205: its argument is the reply's error, or "Wait failed: ..." with
      the text of the reply when it has none.
    - When the reply reads as something else than a dict ([null], a
      string, a list, a number), [resp.get] does not exist and the loop
      ends with [AttributeError], whatever the status. *)
Theorem wait_refused_fails {rt : Runtime} (E : env) (fuel : nat)
    (task_id version : string) (prt : Z) (overall : option Z)
    (started_at : Q) (deadline : option Q) (attempt : Z) (w : world)
    (took : Q) (a : urlopen_result) (status : Z) (resp : json) :
  late E deadline w = false →
  urlopen E (n_http w) (wait_request task_id prt) = (took, a) →
  json_of_answer a = Ok (status, resp) →
  status ≠ 404%Z →
  ∃ w',
    http_requests (trace w')
    = (http_requests (trace w) ++ [wait_request task_id prt])%list
    ∧ sleeps (trace w') = sleeps (trace w)
    ∧ (∀ m : gmap string json, resp = JObj m →
         status ≠ 200%Z ∨ truthy (default JNull (m !! "success")) = false →
         wait_loop E (S fuel) task_id version prt overall started_at deadline
           attempt w
         = Some (Raise (RuntimeError
                          (py_or (default JNull (m !! "error"))
                             (JStr ("Wait failed: " ++ py_str resp)))), w'))
    ∧ ((∀ m, resp ≠ JObj m) →
         wait_loop E (S fuel) task_id version prt overall started_at deadline
           attempt w
         = Some (Raise AttributeError, w')).
Proof.
  intros Hlate Ha Hj H404.
  exists (polled (wait_request task_id prt) took (checked E deadline w)).
  assert (Hloop :
    wait_loop E (S fuel) task_id version prt overall started_at deadline attempt w
    = match wait_iteration E task_id version prt overall started_at deadline
              (attempt + 1) w with
      | Some (Ok Continue, w1) =>
          wait_loop E fuel task_id version prt overall started_at deadline
            (attempt + 1) w1
      | Some (Ok (Return state), w1) => Some (Ok state, w1)
      | Some (Raise e, w1) => Some (Raise e, w1)
      | None => None
      end).
  { simpl. unfold bind at 1.
    destruct (wait_iteration E task_id version prt overall started_at deadline
                (attempt + 1) w) as [[[[|state] | e] w1] |]; reflexivity. }
  rewrite Hloop.
  rewrite (wait_iteration_reply E _ _ _ _ _ _ _ _ _ _ _ _ Hlate Ha Hj).
  cbv zeta. apply Z.eqb_neq in H404. rewrite H404.
  split; [|split; [|split]].
  - rewrite trace_polled, trace_checked, !http_requests_app.
    destruct deadline; simpl; rewrite !app_nil_r; auto.
  - rewrite trace_polled, trace_checked, !sleeps_app.
    destruct deadline; simpl; rewrite !app_nil_r; auto.
  - intros m -> Hbad.
    assert (Hns : not_success status (JObj m) = Ok true).
    { unfold not_success. destruct Hbad as [Hstatus | Hsuccess].
      - apply Z.eqb_neq in Hstatus. rewrite Hstatus. reflexivity.
      - destruct (status =? 200)%Z; simpl; [rewrite Hsuccess|]; reflexivity. }
    unfold bind at 1, lift at 1. rewrite Hns. reflexivity.
  - intros Hresp.
    pose proof (py_get_not_a_dict resp "error" Hresp) as Herror.
    pose proof (py_get_not_a_dict resp "success" Hresp) as Hsuccess.
    unfold bind at 1, lift at 1, not_success.
    destruct (status =? 200)%Z; simpl negb; cbv iota.
    + rewrite Hsuccess. reflexivity.
    + unfold bind at 1, lift at 1. rewrite Herror. reflexivity.
Qed.

Lemma wait_refused_fails_witness :
  ∃ w',
    wait_loop (rt := example_rt)
      (scripted [ErrorResponse 500 (list_byte_of_string "refused")])
      1 "obj1" "17" 30 (Some 600%Z) 0 (Some 600%Q) 0 world0
    = Some (Raise (RuntimeError (JStr "quota")), w')
    ∧ http_requests (trace w') = [wait_request "obj1" 30]
    ∧ sleeps (trace w') = [].
Proof.
  destruct (wait_refused_fails (rt := example_rt)
              (scripted [ErrorResponse 500 (list_byte_of_string "refused")])
              0 "obj1" "17" 30 (Some 600%Z) 0 (Some 600%Q) 0 world0 1
              (ErrorResponse 500 (list_byte_of_string "refused")) 500
              (JObj (<["success" := JBool false]> (<["error" := JStr "quota"]> ∅))))
    as (w' & Hreq & Hsleep & Hdict & _);
    [vm_compute; reflexivity .. | discriminate |].
  exists w'. split; [|split; [exact Hreq | exact Hsleep]].
  rewrite (Hdict _ eq_refl); [reflexivity | left; discriminate].
Defined.

(** What the request raises (a transport error, [CancelledError], the
    "Non-JSON response" of a 2xx reply) leaves the loop as it is, after
    that one request, and leaves the call after the [finally] block. *)
Theorem wait_request_exception_propagates {rt : Runtime} (E : env)
    (fuel : nat) (task_id version : string) (prt : Z) (overall : option Z)
    (w : world) (took : Q) (a : urlopen_result) (e : exn) :
  let started_at := (clock w + drift E (n_clock w))%Q in
  let deadline := (λ t : Z, (started_at + inject_Z t)%Q) <$> overall in
  let w0 := set_up E task_id version prt overall w in
  late E deadline w0 = false →
  urlopen E (n_http w) (wait_request task_id prt) = (took, a) →
  json_of_answer a = Raise e →
  wait_until_version_final E (S fuel) task_id version prt overall w
  = Some (Raise e,
          cleaned_up (polled (wait_request task_id prt) took (checked E deadline w0))).
Proof.
  intros started_at deadline w0 Hlate Ha Hj.
  rewrite wait_until_version_final_eq. cbv zeta.
  fold started_at. fold deadline. fold w0. simpl wait_loop. unfold bind at 1.
  rewrite (wait_iteration_raises E _ _ _ _ _ _ _ w0 took a e Hlate Ha Hj).
  reflexivity.
Qed.

Lemma wait_request_exception_propagates_witness :
  ∃ w',
    wait_until_version_final (rt := example_rt)
      (scripted [Failure (TransportError "connection refused")])
      1 "obj1" "17" 30 (Some 600%Z) world0
    = Some (Raise (TransportError "connection refused"), w')
    ∧ tick_task w' = TaskDone false.
Proof.
  eexists. split.
  - apply (wait_request_exception_propagates (rt := example_rt)
             (scripted [Failure (TransportError "connection refused")])
             0 "obj1" "17" 30 (Some 600%Z) world0 1
             (Failure (TransportError "connection refused"))
             (TransportError "connection refused"));
      vm_compute; reflexivity.
  - vm_compute; reflexivity.
Defined.

(** Once the clock is past the deadline at the head of an iteration, the
    loop ends with [TimeoutError], whose text names the configured
    seconds, without asking the server again: whatever the server would
    have answered plays no part. *)
Theorem wait_deadline_passed_no_request {rt : Runtime} (E : env) (fuel : nat)
    (task_id version : string) (prt : Z) (T : Z)
    (started_at d : Q) (attempt : Z) (w : world) :
  (d < clock w + drift E (n_clock w))%Q →
  ∃ w',
    wait_loop E (S fuel) task_id version prt (Some T) started_at (Some d) attempt w
    = Some (Raise (TimeoutError ("Overall timeout reached (" ++ pretty T ++ "s)")), w')
    ∧ http_requests (trace w') = http_requests (trace w)
    ∧ sleeps (trace w') = sleeps (trace w).
Proof.
  intros Hpast.
  assert (Hlate : late E (Some d) w = true).
  { simpl. apply negb_true_iff. destruct (Qle_bool _ d) eqn:Hle; [|reflexivity].
    apply Qle_bool_iff in Hle. exfalso. lra. }
  eexists. split.
  - rewrite (wait_loop_late E _ _ _ _ _ _ _ _ _ Hlate). reflexivity.
  - rewrite trace_checked, http_requests_app, sleeps_app. simpl.
    rewrite !app_nil_r. auto.
Qed.

Lemma wait_deadline_passed_no_request_witness :
  ∃ w',
    wait_loop (rt := example_rt) (scripted [ok_200 "succeeded"])
      1 "obj1" "17" 30 (Some 600%Z) 0 (Some 600%Q) 0 (set_clock 601 world0)
    = Some (Raise (TimeoutError "Overall timeout reached (600s)"), w')
    ∧ http_requests (trace w') = []
    ∧ sleeps (trace w') = [].
Proof.
  apply (wait_deadline_passed_no_request (rt := example_rt)
           (scripted [ok_200 "succeeded"]) 0 "obj1" "17" 30 600 0 600 0
           (set_clock 601 world0)).
  reflexivity.
Defined.

(** The deadline is looked at only at the head of an iteration: when
    the first check passes and the reply reports "succeeded", the call
    returns its state, also when the reply came in after the deadline
    and more than the overall timeout has passed. *)
Theorem wait_succeeded_after_deadline {rt : Runtime} (E : env) (fuel : nat)
    (task_id version : string) (prt : Z) (T : Z) (w : world)
    (took : Q) (a : urlopen_result) (resp : gmap string json) (state : json) :
  clock_goes_on E →
  (drift E (S (n_clock w)) <= inject_Z T)%Q →
  (inject_Z T < drift E (S (n_clock w)) + took)%Q →
  urlopen E (n_http w) (wait_request task_id prt) = (took, a) →
  json_of_answer a = Ok (200%Z, JObj resp) →
  success_envelope resp state →
  reports version state "succeeded" →
  ∃ w',
    wait_until_version_final E (S fuel) task_id version prt (Some T) w
    = Some (Ok state, w')
    ∧ (inject_Z T < clock w' - (clock w + drift E (n_clock w)))%Q.
Proof.
  intros Hdrift Hbefore Hafter Ha Hj Henv Hst.
  rewrite wait_until_version_final_eq. cbv zeta.
  set (started_at := (clock w + drift E (n_clock w))%Q).
  set (w0 := set_up E task_id version prt (Some T) w).
  assert (Hclock0 : clock w0 = started_at) by reflexivity.
  assert (Hn0 : n_clock w0 = S (n_clock w)) by reflexivity.
  assert (Hlate : late E (Some (started_at + inject_Z T)%Q) w0 = false).
  { unfold late. rewrite Hclock0, Hn0. apply negb_false_iff. apply Qle_bool_iff.
    lra. }
  set (d := (started_at + inject_Z T)%Q) in *.
  set (w1 := polled (wait_request task_id prt) took (checked E (Some d) w0)).
  exists (cleaned_up
            (emit (EvLog (LogDone (clock (clock_read E w1) - started_at)%Q))
               (clock_read E w1))).
  split.
  - change ((λ t : Z, (started_at + inject_Z t)%Q) <$> Some T) with (Some d).
    rewrite (wait_loop_succeeded E _ _ _ _ _ _ _ _ w0 took a resp state
               Hlate Ha Hj Henv Hst).
    reflexivity.
  - assert (Hc1 : clock w1 = (started_at + drift E (S (n_clock w)) + took)%Q).
    { subst w1. rewrite clock_polled. reflexivity. }
    assert (Hc2 : clock (cleaned_up
                           (emit (EvLog (LogDone (clock (clock_read E w1)
                                                  - started_at)%Q))
                              (clock_read E w1)))
                  = (clock w1 + drift E (n_clock w1))%Q) by reflexivity.
    rewrite Hc2, Hc1. pose proof (Hdrift (n_clock w1)). lra.
Qed.

Lemma wait_succeeded_after_deadline_witness :
  ∃ w',
    wait_until_version_final (rt := example_rt) (scripted [ok_200 "succeeded"])
      1 "obj1" "17" 30 (Some 0%Z) world0
    = Some (Ok (state_with (task_with "succeeded")), w')
    ∧ (inject_Z 0 < clock w' - (clock world0 + 0))%Q.
Proof.
  apply (wait_succeeded_after_deadline (rt := example_rt)
           (scripted [ok_200 "succeeded"]) 0 "obj1" "17" 30 0 world0 1
           (ok_200 "succeeded")
           (<["success" := JBool true]>
              (<["data" := state_with (task_with "succeeded")]> ∅))).
  - intros k. discriminate.
  - discriminate.
  - reflexivity.
  - vm_compute; reflexivity.
  - vm_compute; reflexivity.
  - apply success_envelope_example.
  - apply reports_example.
Defined.

(** A successful reply without a usable state does not make the loop
    wait: without ["data"] the loop ends with [KeyError], and with a
    ["data"] that is no dict ([None], a list, a number, a string) it
    ends with [AttributeError], both after that one request. *)
Theorem wait_malformed_state {rt : Runtime} (E : env) (fuel : nat)
    (task_id version : string) (prt : Z) (overall : option Z)
    (started_at : Q) (deadline : option Q) (attempt : Z) (w : world)
    (took : Q) (a : urlopen_result) (resp : gmap string json) :
  late E deadline w = false →
  urlopen E (n_http w) (wait_request task_id prt) = (took, a) →
  json_of_answer a = Ok (200%Z, JObj resp) →
  truthy (default JNull (resp !! "success")) = true →
  let w' := polled (wait_request task_id prt) took (checked E deadline w) in
  (resp !! "data" = None →
   wait_loop E (S fuel) task_id version prt overall started_at deadline attempt w
   = Some (Raise (KeyError "data"), w'))
  ∧ (∀ state, resp !! "data" = Some state → (∀ m, state ≠ JObj m) →
     wait_loop E (S fuel) task_id version prt overall started_at deadline attempt w
     = Some (Raise AttributeError, w')).
Proof.
  intros Hlate Ha Hj Hsuccess w'.
  assert (Hstart :
    wait_loop E (S fuel) task_id version prt overall started_at deadline attempt w
    = bind (bind (lift (py_subscript (JObj resp) "data")) (λ state,
              bind (lift (get_version_status state version)) (λ st,
                match st with
                | None =>
                    bind (log_info (LogNotFoundYet (attempt + 1)))
                      (λ _, bind (sleep E (1 # 10)) (λ _, ret Continue))
                | Some processing =>
                    bind (log_info (LogProcessing (attempt + 1)))
                      (λ _, ret Continue)
                | Some failed =>
                    bind (lift (raise_if_failed state version))
                      (λ _, raise (RuntimeError (JStr "Generation failed")))
                | Some succeeded =>
                    bind (time_perf_counter E) (λ t,
                      bind (log_info (LogDone (t - started_at)%Q))
                        (λ _, ret (Return state)))
                end)))
        (λ exit,
           match exit with
           | Continue =>
               wait_loop E fuel task_id version prt overall started_at
                 deadline (attempt + 1)
           | Return state => ret state
           end) w').
  { simpl. unfold bind at 1.
    rewrite (wait_iteration_reply E _ _ _ _ _ _ _ _ _ _ _ _ Hlate Ha Hj).
    cbv zeta. change (200 =? 404)%Z with false. cbv iota.
    unfold bind at 1, lift at 1, not_success. simpl. rewrite Hsuccess. simpl.
    reflexivity. }
  split.
  - intros Hdata. rewrite Hstart. unfold bind at 1 2, lift at 1. simpl.
    rewrite Hdata. reflexivity.
  - intros state Hdata Hnodict. rewrite Hstart.
    unfold bind at 1 2, lift at 1. simpl. rewrite Hdata.
    unfold bind at 1, lift at 1.
    assert (Hst : get_version_status state version = Raise AttributeError).
    { destruct state; try reflexivity. destruct (Hnodict m eq_refl). }
    rewrite Hst. reflexivity.
Qed.

Lemma wait_malformed_state_witness :
  wait_loop (rt := example_rt) (scripted [ok_200 "ok"])
    1 "obj1" "17" 30 (Some 600%Z) 0 (Some 600%Q) 0 world0
  = Some (Raise (KeyError "data"),
          polled (wait_request "obj1" 30) 1
            (checked (scripted [ok_200 "ok"]) (Some 600%Q) world0)).
Proof.
  destruct (wait_malformed_state (rt := example_rt) (scripted [ok_200 "ok"])
              0 "obj1" "17" 30 (Some 600%Z) 0 (Some 600%Q) 0 world0 1
              (ok_200 "ok") {[ "success" := JBool true ]}) as [Hmissing _];
    [vm_compute; reflexivity ..|].
  apply Hmissing. vm_compute; reflexivity.
Defined.

(** Without an overall timeout nothing ends the wait for a task that
    never shows up: when every reply is successful and has no task of
    the version, and no sleep is interrupted, the call has no result,
    whatever the fuel. *)
Theorem no_timeout_never_ends {rt : Runtime} (E : env) (fuel : nat)
    (task_id version : string) (prt : Z) (w : world) :
  always_absent E (wait_request task_id prt) version →
  sleeps_through E →
  wait_until_version_final E fuel task_id version prt None w = None.
Proof.
  intros Habsent Hsleep.
  rewrite wait_until_version_final_eq. cbv zeta. simpl fmap.
  generalize (set_up E task_id version prt None w) as w0.
  generalize 0%Z as attempt.
  generalize (clock w + drift E (n_clock w))%Q as started_at.
  intros started_at.
  assert (Hloop : ∀ attempt w0,
            wait_loop E fuel task_id version prt None started_at None attempt w0
            = None).
  { induction fuel as [|fuel IH]; intros attempt w0; [reflexivity|].
    destruct (Habsent (n_http w0)) as (took & a & resp & state & Ha & _
                                        & Hj & Henv & Habs).
    destruct (Hsleep (n_sleep w0) (1 # 10)%Q) as (nap & Hnap & _).
    rewrite (wait_loop_not_visible E _ _ _ _ _ _ _ _ _ _ _ _ _ _
               (eq_refl : late E None w0 = false) Ha Hj Henv
               (get_version_status_absent _ _ Habs) Hnap).
    apply IH. }
  intros attempt w0. rewrite Hloop. reflexivity.
Qed.

Lemma no_timeout_never_ends_witness :
  wait_until_version_final (rt := example_rt) (repeating (ok_200 "no-task"))
    50 "obj1" "17" 30 None world0 = None.
Proof.
  apply (no_timeout_never_ends (rt := example_rt)
           (repeating (ok_200 "no-task")) 50 "obj1" "17" 30 world0).
  - intros k.
    exists 1%Q, (ok_200 "no-task"),
      (<["success" := JBool true]>
         (<["data" := JObj {[ "tasks" := JList [] ]}]> ∅)),
      (JObj {[ "tasks" := JList [] ]}).
    split; [reflexivity|]. split; [discriminate|].
    split; [vm_compute; reflexivity|].
    split; [apply success_envelope_example|].
    exists {[ "tasks" := JList [] ]}, [].
    split; [reflexivity|]. split; [vm_compute; reflexivity | constructor].
  - intros k delay. exists delay. split; [reflexivity | apply Qle_refl].
Defined.

(** ** The debug endpoint *)

(** [debug_add_object_to_rooms] makes its one request. By what
    [_sync_http_json] makes of the answer:
    - it raises: [debug_add_object_to_rooms] fails with that exception;
    - it reads as something else than a dict: [resp.get] does not exist
      and the call fails with [AttributeError], whatever the status;
    - it reads as a dict, with a status other than 200 or a false
      [success]: the call fails with a [RuntimeError] (the reply's
      error, or "debug add failed: ...");
    - it reads as a dict with status 200 and a true [success]: the call
      returns after the log line "ok". *)
Theorem debug_add_outcomes {rt : Runtime} (E : env) (payload : json)
    (w : world) (took : Q) (a : urlopen_result) :
  urlopen E (n_http w) (debug_request payload) = (took, a) →
  let w' := polled (debug_request payload) took (emit (EvLog LogDebugAdd) w) in
  http_requests (trace w')
  = (http_requests (trace w) ++ [debug_request payload])%list
  ∧ (∀ e, json_of_answer a = Raise e →
       debug_add_object_to_rooms E payload w = Some (Raise e, w'))
  ∧ (∀ status resp, json_of_answer a = Ok (status, resp) →
       ((∀ m, resp ≠ JObj m) →
        debug_add_object_to_rooms E payload w = Some (Raise AttributeError, w'))
       ∧ (∀ m : gmap string json, resp = JObj m →
            (status ≠ 200%Z ∨ truthy (default JNull (m !! "success")) = false →
             debug_add_object_to_rooms E payload w
             = Some (Raise (RuntimeError
                              (py_or (default JNull (m !! "error"))
                                 (JStr ("debug add failed: " ++ py_str resp)))), w'))
            ∧ (status = 200%Z → truthy (default JNull (m !! "success")) = true →
               debug_add_object_to_rooms E payload w
               = Some (Ok tt, emit (EvLog LogOk) w')))).
Proof.
  intros Ha w'.
  assert (Hstart :
    debug_add_object_to_rooms E payload w
    = bind (lift (json_of_answer a)) (λ sr : Z * json,
        let '(status, resp) := sr in
        bind (lift (not_success status resp)) (λ bad : bool,
          if bad then
            bind (lift (py_get resp "error")) (λ e,
              raise (RuntimeError
                       (py_or e (JStr ("debug add failed: " ++ py_str resp)))))
          else log_info LogOk)) w').
  { unfold debug_add_object_to_rooms. unfold bind at 1, log_info at 1.
    unfold bind at 1. unfold debug_request in Ha.
    rewrite (http_json_eq E _ _ _ _ took a) by exact Ha.
    unfold bind at 3, lift at 3. destruct (json_of_answer a); reflexivity. }
  split; [|split].
  - subst w'. rewrite trace_polled, trace_emit, !http_requests_app. simpl.
    rewrite !app_nil_r. reflexivity.
  - intros e Hj. rewrite Hstart, Hj. reflexivity.
  - intros status resp Hj. rewrite Hstart, Hj.
    unfold bind at 1, lift at 1. split.
    + intros Hresp.
      pose proof (py_get_not_a_dict resp "error" Hresp) as Herror.
      pose proof (py_get_not_a_dict resp "success" Hresp) as Hsuccess.
      unfold bind at 1, lift at 1, not_success.
      destruct (status =? 200)%Z; simpl negb; cbv iota.
      * rewrite Hsuccess. reflexivity.
      * unfold bind at 1, lift at 1. rewrite Herror. reflexivity.
    + intros m ->. split.
      * intros Hbad.
        assert (Hns : not_success status (JObj m) = Ok true).
        { unfold not_success. destruct Hbad as [Hstatus | Hsuccess].
          - apply Z.eqb_neq in Hstatus. rewrite Hstatus. reflexivity.
          - destruct (status =? 200)%Z; simpl; [rewrite Hsuccess|]; reflexivity. }
        unfold bind at 1, lift at 1. rewrite Hns. reflexivity.
      * intros -> Hsuccess.
        unfold bind at 1, lift at 1, not_success. simpl. rewrite Hsuccess.
        reflexivity.
Qed.

Lemma debug_add_outcomes_witness :
  debug_add_object_to_rooms (rt := example_rt) (scripted [ok_200 "ok"])
    (JObj ∅) world0
  = Some (Ok tt,
          emit (EvLog LogOk)
            (polled (debug_request (JObj ∅)) 1 (emit (EvLog LogDebugAdd) world0))).
Proof.
  destruct (debug_add_outcomes (rt := example_rt) (scripted [ok_200 "ok"])
              (JObj ∅) world0 1 (ok_200 "ok"))
    as (_ & _ & Hreply); [vm_compute; reflexivity|].
  assert (Hj : json_of_answer (rt := example_rt) (ok_200 "ok")
               = Ok (200%Z, JObj {[ "success" := JBool true ]})).
  { vm_compute; reflexivity. }
  destruct (Hreply _ _ Hj) as (_ & Hdict).
  destruct (Hdict _ eq_refl) as (_ & Hok).
  apply Hok; vm_compute; reflexivity.
Defined.

(** ** The content *)

(** For a response, [get_object_content_glb] returns the bytes of the
    body as they came and the content type, which may be missing; it
    has made the one request for the content of that id and version. *)
Theorem fetch_content_returns_body {rt : Runtime} (E : env)
    (task_id version : string) (w : world) (took : Q) (status : Z)
    (body : bytes) (content_type : option string) :
  urlopen E (n_http w) (content_request task_id version)
  = (took, Response status body content_type) →
  ∃ w',
    get_object_content_glb E task_id version w = Some (Ok (body, content_type), w')
    ∧ http_requests (trace w')
      = (http_requests (trace w) ++ [content_request task_id version])%list.
Proof.
  intros Ha. eexists. split.
  - unfold get_object_content_glb, bind, log_info. unfold content_request in Ha.
    rewrite (http_bytes_eq E _ _ _ took _) by exact Ha. reflexivity.
  - rewrite trace_polled, trace_emit, !http_requests_app. simpl.
    rewrite app_nil_r. reflexivity.
Qed.

Lemma fetch_content_returns_body_witness :
  ∃ w',
    get_object_content_glb (rt := example_rt) (scripted [Response 200 html None])
      "obj1" "17" world0 = Some (Ok (html, None), w')
    ∧ http_requests (trace w') = [content_request "obj1" "17"].
Proof.
  apply (fetch_content_returns_body (rt := example_rt)
           (scripted [Response 200 html None]) "obj1" "17" world0 1 200 html None).
  reflexivity.
Defined.

(** ** The whole run *)

Lemma create_generation_ok {rt : Runtime} (E : env)
    (object_name object_description model : string) (w : world) (took : Q)
    (a : urlopen_result) (resp data : gmap string json) (oid : string) :
  urlopen E (n_http w)
    (create_request (pretty (time_ms E (n_time w)))
       object_name object_description model) = (took, a) →
  json_of_answer a = Ok (200%Z, JObj resp) →
  success_envelope resp (JObj data) →
  data !! "id" = Some (JStr oid) →
  create_generation E object_name object_description model w
  = Some (Ok {| id := oid; version := pretty (time_ms E (n_time w));
                name := object_name; description := object_description |},
          emit (EvLog (LogCreated oid))
            (create_sent E object_name object_description model took w)).
Proof.
  intros Ha Hj [Hsuccess Hdata] Hid.
  rewrite (create_generation_reply E _ _ _ _ _ _ _ _ Ha Hj).
  unfold bind at 1, lift at 1, not_success. simpl. rewrite Hsuccess. simpl.
  unfold bind at 1, lift at 1. rewrite Hdata.
  unfold bind at 1, lift at 1. simpl. rewrite Hid. reflexivity.
Qed.

Lemma wait_first_reply_succeeded {rt : Runtime} (E : env) (fuel : nat)
    (task_id version : string) (prt T : Z) (w : world) (took : Q)
    (a : urlopen_result) (resp : gmap string json) (state : json) :
  (drift E (S (n_clock w)) <= inject_Z T)%Q →
  urlopen E (n_http w) (wait_request task_id prt) = (took, a) →
  json_of_answer a = Ok (200%Z, JObj resp) →
  success_envelope resp state →
  reports version state "succeeded" →
  wait_until_version_final E (S fuel) task_id version prt (Some T) w
  = Some (Ok state, waited_once E task_id version prt T took w).
Proof.
  intros Hbefore Ha Hj Henv Hst.
  rewrite wait_until_version_final_eq. cbv zeta.
  set (started_at := (clock w + drift E (n_clock w))%Q).
  set (w0 := set_up E task_id version prt (Some T) w).
  assert (Hclock0 : clock w0 = started_at) by reflexivity.
  assert (Hn0 : n_clock w0 = S (n_clock w)) by reflexivity.
  assert (Hlate : late E (Some (started_at + inject_Z T)%Q) w0 = false).
  { unfold late. rewrite Hclock0, Hn0. apply negb_false_iff. apply Qle_bool_iff.
    lra. }
  change ((λ t : Z, (started_at + inject_Z t)%Q) <$> Some T)
    with (Some (started_at + inject_Z T)%Q).
  rewrite (wait_loop_succeeded E _ _ _ _ _ _ _ _ w0 took a resp state
             Hlate Ha Hj Henv Hst).
  reflexivity.
Qed.

Lemma n_http_cleaned_up (w : world) : n_http (cleaned_up w) = n_http w.
Proof. reflexivity. Qed.

Lemma n_http_clock_read (E : env) (w : world) : n_http (clock_read E w) = n_http w.
Proof. reflexivity. Qed.

Lemma n_http_waited_once (E : env) (task_id version : string) (prt T : Z)
    (took : Q) (w : world) :
  n_http (waited_once E task_id version prt T took w) = S (n_http w).
Proof.
  unfold waited_once. cbv zeta.
  rewrite n_http_cleaned_up, n_http_emit, n_http_clock_read, n_http_polled,
    n_http_checked.
  reflexivity.
Qed.

Lemma trace_waited_once (E : env) (task_id version : string) (prt T : Z)
    (took : Q) (w : world) :
  ∃ evs,
    trace (waited_once E task_id version prt T took w) = (trace w ++ evs)%list
    ∧ http_requests evs = [wait_request task_id prt]
    ∧ sleeps evs = [].
Proof.
  unfold waited_once. cbv zeta. eexists. split.
  - rewrite trace_cleaned_up, trace_emit, trace_clock_read, trace_polled,
      trace_checked, trace_set_up.
    rewrite <- !app_assoc. reflexivity.
  - split; reflexivity.
Qed.

Lemma get_object_content_glb_eq {rt : Runtime} (E : env)
    (task_id version : string) (w : world) (took : Q) (a : urlopen_result) :
  urlopen E (n_http w) (content_request task_id version) = (took, a) →
  get_object_content_glb E task_id version w
  = Some (bytes_of_answer a,
          polled (content_request task_id version) took
            (emit (EvLog (LogFetch task_id version)) w)).
Proof.
  intros Ha. unfold get_object_content_glb, bind, log_info.
  unfold content_request in Ha.
  rewrite (http_bytes_eq E _ _ _ took _) by exact Ha. reflexivity.
Qed.

Lemma debug_add_object_to_rooms_ok {rt : Runtime} (E : env) (payload : json)
    (w : world) (took : Q) (a : urlopen_result) (resp : gmap string json) :
  urlopen E (n_http w) (debug_request payload) = (took, a) →
  json_of_answer a = Ok (200%Z, JObj resp) →
  truthy (default JNull (resp !! "success")) = true →
  debug_add_object_to_rooms E payload w
  = Some (Ok tt,
          emit (EvLog LogOk)
            (polled (debug_request payload) took (emit (EvLog LogDebugAdd) w))).
Proof.
  intros Ha Hj Hsuccess.
  unfold debug_add_object_to_rooms. unfold bind at 1, log_info at 1.
  unfold bind at 1. unfold debug_request in Ha.
  rewrite (http_json_eq E _ _ _ _ took a) by exact Ha.
  rewrite Hj. unfold bind at 1, lift at 1, not_success. simpl.
  rewrite Hsuccess. reflexivity.
Qed.

Lemma main_steps {rt : Runtime} (E : env) (fuel : nat)
    (object_name object_description model : string) (w : world)
    (obj : ObjectMetadata) (wc : world) (state : json) (ww : world)
    (glb : bytes) (content_type : option string) (wf : world)
    (r : result unit) (wd : world) :
  create_generation E object_name object_description model w = Some (Ok obj, wc) →
  wait_until_version_final E fuel (id obj) (version obj)
    DEFAULT_WAIT_TIMEOUT_SEC DEFAULT_OVERALL_WAIT_TIMEOUT_SEC wc
  = Some (Ok state, ww) →
  get_object_content_glb E (id obj) (version obj)
    (emit (EvLog (LogVerify (version obj))) ww)
  = Some (Ok (glb, content_type), wf) →
  debug_add_object_to_rooms E (debug_payload obj)
    (emit (EvLog (LogSnapshot (API_BASE_URL ++ "/objects/" ++ id obj
                                 ++ "/versions/" ++ version obj ++ "/snapshot")))
       (emit (EvLog (LogContent content_type (length glb))) wf))
  = Some (r, wd) →
  main E fuel object_name object_description model w = Some (r, wd).
Proof.
  intros Hcreate Hwait Hfetch Hdebug.
  unfold main. unfold bind at 1. rewrite Hcreate.
  unfold bind at 1. rewrite Hwait.
  unfold bind at 1, log_info at 1.
  unfold bind at 1. rewrite Hfetch.
  unfold bind at 1, log_info at 1. unfold bind at 1, log_info at 1.
  exact Hdebug.
Qed.

(** A run in which everything goes well at once: the creation is
    accepted with the id [oid], the first wait reply reports the version
    as "succeeded" (and comes before the ten minutes are over at the
    first check), the content comes with a response, and the debug
    endpoint accepts. Then [main] returns, and its requests are, in
    order: the creation, one wait for [oid] with the poll timeout 30,
    the content of [oid] and of the version that was sent with the
    creation, and the registration of the name, the description and
    that same content URL. It never sleeps. *)
Theorem main_happy_path {rt : Runtime} (E : env) (fuel : nat)
    (object_name object_description model : string) (w : world)
    (took0 took1 took2 took3 : Q) (a0 a1 a3 : urlopen_result)
    (resp0 data resp1 resp3 : gmap string json) (oid : string) (state : json)
    (status2 : Z) (glb : bytes) (content_type : option string) :
  let ver := pretty (time_ms E (n_time w)) in
  let obj := {| id := oid; version := ver; name := object_name;
                description := object_description |} in
  urlopen E (n_http w) (create_request ver object_name object_description model)
  = (took0, a0) →
  json_of_answer a0 = Ok (200%Z, JObj resp0) →
  success_envelope resp0 (JObj data) →
  data !! "id" = Some (JStr oid) →
  (drift E (S (n_clock w)) <= 600)%Q →
  urlopen E (S (n_http w)) (wait_request oid 30) = (took1, a1) →
  json_of_answer a1 = Ok (200%Z, JObj resp1) →
  success_envelope resp1 state →
  reports ver state "succeeded" →
  urlopen E (S (S (n_http w))) (content_request oid ver)
  = (took2, Response status2 glb content_type) →
  urlopen E (S (S (S (n_http w)))) (debug_request (debug_payload obj))
  = (took3, a3) →
  json_of_answer a3 = Ok (200%Z, JObj resp3) →
  truthy (default JNull (resp3 !! "success")) = true →
  ∃ w',
    main E (S fuel) object_name object_description model w = Some (Ok tt, w')
    ∧ http_requests (trace w')
      = (http_requests (trace w)
         ++ [create_request ver object_name object_description model;
             wait_request oid 30;
             content_request oid ver;
             debug_request (debug_payload obj)])%list
    ∧ sleeps (trace w') = sleeps (trace w).
Proof.
  intros ver obj Ha0 Hj0 Henv0 Hid Hdrift Ha1 Hj1 Henv1 Hst1 Ha2 Ha3 Hj3 Hs3.
  pose proof (create_generation_ok E _ _ _ _ _ _ _ _ _ Ha0 Hj0 Henv0 Hid)
    as Hcreate.
  remember (emit (EvLog (LogCreated oid))
              (create_sent E object_name object_description model took0 w))
    as wc eqn:Hwc.
  assert (Hnc : n_http wc = S (n_http w)).
  { rewrite Hwc. unfold create_sent. rewrite n_http_emit, n_http_polled.
    reflexivity. }
  assert (Hcc : n_clock wc = n_clock w).
  { rewrite Hwc. unfold create_sent, polled, run_ready. simpl.
    destruct (tick_task w); reflexivity. }
  assert (Htc : trace wc
                = (trace w
                   ++ [EvTime (time_ms E (n_time w));
                       EvLog (LogCreate object_name ver model);
                       EvHttp (create_request ver object_name
                                 object_description model);
                       EvLog (LogCreated oid)])%list).
  { rewrite Hwc, trace_emit. unfold create_sent.
    rewrite trace_polled, !trace_emit. rewrite <- !app_assoc. reflexivity. }
  clear Hwc.
  rewrite <- Hnc in Ha1. rewrite <- Hcc in Hdrift.
  pose proof (wait_first_reply_succeeded E fuel oid ver 30 600 wc took1 a1
                resp1 state Hdrift Ha1 Hj1 Henv1 Hst1) as Hwait.
  destruct (trace_waited_once E oid ver 30 600 took1 wc)
    as (evs & Htw & Hreq & Hsl).
  pose proof (n_http_waited_once E oid ver 30 600 took1 wc) as Hnw.
  remember (waited_once E oid ver 30 600 took1 wc) as ww eqn:Hww.
  clear Hww. rewrite Hnc in Hnw.
  assert (Ha2' : urlopen E (n_http (emit (EvLog (LogVerify ver)) ww))
                   (content_request oid ver)
                 = (took2, Response status2 glb content_type)).
  { rewrite n_http_emit, Hnw. exact Ha2. }
  pose proof (get_object_content_glb_eq E oid ver _ took2 _ Ha2') as Hfetch.
  remember (polled (content_request oid ver) took2
              (emit (EvLog (LogFetch oid ver))
                 (emit (EvLog (LogVerify ver)) ww))) as wf eqn:Hwf.
  assert (Hnf : n_http wf = S (S (S (n_http w)))).
  { rewrite Hwf, n_http_polled, !n_http_emit, Hnw. reflexivity. }
  assert (Htf : trace wf
                = (trace ww
                   ++ [EvLog (LogVerify ver); EvLog (LogFetch oid ver);
                       EvHttp (content_request oid ver)])%list).
  { rewrite Hwf, trace_polled, !trace_emit. rewrite <- !app_assoc.
    reflexivity. }
  clear Hwf.
  remember (emit (EvLog (LogSnapshot (API_BASE_URL ++ "/objects/" ++ oid
                                        ++ "/versions/" ++ ver ++ "/snapshot")))
              (emit (EvLog (LogContent content_type (length glb))) wf))
    as wl eqn:Hwl.
  assert (Hnl : n_http wl = S (S (S (n_http w)))).
  { rewrite Hwl, !n_http_emit. exact Hnf. }
  rewrite <- Hnl in Ha3.
  pose proof (debug_add_object_to_rooms_ok E _ wl took3 a3 resp3 Ha3 Hj3 Hs3)
    as Hdebug.
  rewrite Hwl in Hdebug at 1.
  exists (emit (EvLog LogOk)
            (polled (debug_request (debug_payload obj)) took3
               (emit (EvLog LogDebugAdd) wl))).
  split; [|split].
  - exact (main_steps E (S fuel) object_name object_description model w obj
             wc state ww glb content_type wf (Ok tt) _
             Hcreate Hwait Hfetch Hdebug).
  - rewrite trace_emit, trace_polled, trace_emit, Hwl, !trace_emit, Htf, Htw, Htc.
    rewrite !http_requests_app, Hreq. rewrite <- !app_assoc. f_equal.
  - rewrite trace_emit, trace_polled, trace_emit, Hwl, !trace_emit, Htf, Htw, Htc.
    rewrite !sleeps_app, Hsl.
    rewrite <- (app_nil_r (sleeps (trace w))) at 2. rewrite <- !app_assoc.
    f_equal.
Qed.

Lemma main_happy_path_witness :
  ∃ w',
    main (rt := example_rt) happy 1 "jet" "a jet" "gemini-3-flash-preview" world0
    = Some (Ok tt, w')
    ∧ http_requests (trace w')
      = [create_request "17" "jet" "a jet" "gemini-3-flash-preview";
         wait_request "obj1" 30;
         content_request "obj1" "17";
         debug_request
           (debug_payload {| id := "obj1"; version := "17"; name := "jet";
                             description := "a jet" |})]
    ∧ sleeps (trace w') = [].
Proof.
  apply (main_happy_path (rt := example_rt) happy 0
           "jet" "a jet" "gemini-3-flash-preview" world0 1 1 1 1
           (ok_200 "created") (ok_200 "succeeded") (ok_200 "ok")
           (<["success" := JBool true]>
              (<["data" := JObj {[ "id" := JStr "obj1" ]}]> ∅))
           {[ "id" := JStr "obj1" ]}
           (<["success" := JBool true]>
              (<["data" := state_with (task_with "succeeded")]> ∅))
           {[ "success" := JBool true ]}
           "obj1" (state_with (task_with "succeeded")) 200 html None).
  - reflexivity.
  - vm_compute; reflexivity.
  - apply success_envelope_example.
  - vm_compute; reflexivity.
  - discriminate.
  - reflexivity.
  - vm_compute; reflexivity.
  - apply success_envelope_example.
  - apply reports_example.
  - reflexivity.
  - reflexivity.
  - vm_compute; reflexivity.
  - vm_compute; reflexivity.
Defined.
